(** * irida-uploader: upload orchestrator and NextSeq parser

    A shallow embedding of [core/cli_entry.py] and of
    [iridauploader/parsers/nextseq/parser.py].

    Python exceptions are an explicit [result]; the orchestrator, which
    writes status markers and calls the remote collaborators, runs in a
    state-and-exception monad over a [World] that holds the persisted
    markers and the chronological list of collaborator calls. *)

From stdpp Require Import gmap strings list.
From Stdlib Require Import ZArith Ascii.

Open Scope Z_scope.
Open Scope string_scope.
Open Scope list_scope.

Set Warnings "-register-all".

(** ** Exceptions and results *)

(** The exception classes the two files name.  [upload_status.exceptions]
    and [parsers.exceptions] each have a [DirectoryError] class of their
    own, and an [except] clause matches by class.  [TypeError] and
    [AttributeError] are the interpreter's. *)
Inductive exn : Type :=
| upload_status_DirectoryError (message directory : string)
| parsers_DirectoryError (message directory : string)
| SampleSheetError (message sample_sheet : string)
| SequenceFileError (message : string)
| ValidationError (message : string) (validation_result : list exn)
| IridaConnectionError (args : list string)
| TypeError (message : string)
| AttributeError (message : string)
| OtherException (name : string).

Inductive result (A : Type) : Type :=
| Returns (a : A)
| Raises (e : exn).
Arguments Returns {A} a.
Arguments Raises {A} e.

#[global] Instance result_ret : MRet result := fun _ a => Returns a.
#[global] Instance result_bind : MBind result := fun _ _ f m =>
  match m with
  | Returns a => f a
  | Raises e => Raises e
  end.

(** ** The run model (module [model]) *)

(** Modelled from the spec: [model.ValidationResult], whose source is not
    part of the two files: an ordered sequence of errors, valid exactly
    when the sequence is empty, its count the length of the sequence. *)
Record ValidationResult : Type := mkValidationResult { error_list : list exn }.

Definition new_ValidationResult : ValidationResult := mkValidationResult [].

Definition add_error (vr : ValidationResult) (e : exn) : ValidationResult :=
  mkValidationResult (error_list vr ++ [e]).

Definition is_valid (vr : ValidationResult) : bool :=
  match error_list vr with
  | [] => true
  | _ :: _ => false
  end.

Definition error_count (vr : ValidationResult) : nat := length (error_list vr).

(** Modelled from the spec: the run aggregate of module [model]: samples
    with their sequence files, grouped by project, and the run metadata. *)
Record Sample : Type := mkSample {
  sample_name : string;
  sample_project : string;
  sample_files : list string
}.

Record Project : Type := mkProject {
  project_id : string;
  project_samples : list Sample
}.

Record SequencingRun : Type := mkSequencingRun {
  run_metadata : list (string * string);
  run_projects : list Project
}.

(** ** Directory status (module [progress.upload_status]) *)

Inductive DirectoryStatus : Type :=
| DIRECTORY_STATUS_NEW
| DIRECTORY_STATUS_PARTIAL
| DIRECTORY_STATUS_COMPLETE
| DIRECTORY_STATUS_ERROR
| DIRECTORY_STATUS_INVALID.

#[global] Instance DirectoryStatus_eq_dec : EqDecision DirectoryStatus.
Proof. solve_decision. Defined.

(** A call the orchestrator makes to a collaborator. *)
Inductive Call : Type :=
| Call_write_directory_status (directory : string) (status : DirectoryStatus)
| Call_parse_and_validate (directory : string)
| Call_initialize_api_from_config
| Call_prepare_and_validate_for_upload (run : SequencingRun)
| Call_upload_sequencing_run (run : SequencingRun)
| Call_get_first_new_run (directory : string).

(** The state the orchestrator acts on: the marker persisted in each run
    directory (no entry: no marker file) and the calls made so far, the
    oldest first. *)
Record World : Type := mkWorld {
  markers : gmap string DirectoryStatus;
  calls : list Call
}.

Definition record_call (c : Call) (w : World) : World :=
  mkWorld (markers w) (calls w ++ [c]).

Definition set_marker (directory : string) (s : DirectoryStatus) (w : World) : World :=
  mkWorld (<[directory := s]> (markers w)) (calls w).

(** Modelled from the spec: [read_status], NEW when no marker is present,
    else the persisted value. *)
Definition read_directory_status (w : World) (directory : string) : DirectoryStatus :=
  default DIRECTORY_STATUS_NEW (markers w !! directory).

(** ** The orchestrator monad *)

Definition M (A : Type) : Type := World -> result A * World.

#[global] Instance M_ret : MRet M := fun _ a w => (Returns a, w).
#[global] Instance M_bind : MBind M := fun _ _ f m w =>
  match m w with
  | (Returns a, w') => f a w'
  | (Raises e, w') => (Raises e, w')
  end.

Definition raise {A : Type} (e : exn) : M A := fun w => (Raises e, w).

(** [try: body except: handler], for a handler that falls through to the
    statement after the [try].  [handler e = None]: no clause matches the
    class of [e], which goes on propagating. *)
Definition try_except {A : Type} (body : M A) (handler : exn -> option (M A)) : M A :=
  fun w =>
    match body w with
    | (Returns a, w') => (Returns a, w')
    | (Raises e, w') =>
        match handler e with
        | Some h => h w'
        | None => (Raises e, w')
        end
    end.

(** [try: x = body except: ... return code]: every handler leaves the
    enclosing function with a [return].  [inl code]: the function has
    returned [code]; [inr x]: the body's value, execution goes on. *)
Definition try_or_return {A R : Type} (body : M A) (handler : exn -> option (M R)) : M (R + A) :=
  try_except (a ← body; mret (inr a))
             (fun e => match handler e with
                       | Some h => Some (r ← h; mret (inl r))
                       | None => None
                       end).

Definition continue_with {A R : Type} (m : M (R + A)) (k : A -> M R) : M R :=
  s ← m;
  match s with
  | inl r => mret r
  | inr a => k a
  end.

Notation "'proceed' x ':=' m 'then' k" := (continue_with m (fun x => k))
  (at level 10, x name, m at level 100, k at level 200).

(** ** Logging *)

(** The log sink is outside the state the properties speak about: a call
    of [logging.debug], [logging.info], [logging.warning] or
    [logging.error] returns [None] and changes nothing, in the orchestrator
    and in the parser alike. *)
Definition logging_debug {m : Type -> Type} `{MRet m} (msg : string) : m unit := mret ().
Definition logging_info {m : Type -> Type} `{MRet m} (msg : string) : m unit := mret ().
Definition logging_warning {m : Type -> Type} `{MRet m} (msg : string) : m unit := mret ().
Definition logging_error {m : Type -> Type} `{MRet m} (msg : string) : m unit := mret ().

(** [logging.ERROR] is not a function: it is the integer level constant 40
    of the [logging] module.  The call [logging.ERROR(...)] evaluates its
    argument and then raises [TypeError]. *)
Definition logging_ERROR (msg : string) : M unit :=
  raise (TypeError "'int' object is not callable").

(** ** Collaborators of the orchestrator *)

(** What each collaborator does when called: its return value or the
    exception it raises.  None of them is under [core/cli_entry.py]; the
    orchestrator's behaviour is stated for every [Env].  One run of the
    orchestrator writes each status at most once, so an outcome of the
    write per directory and status covers every course a run can take. *)
Record Env : Type := mkEnv {
  (** [write_directory_status directory status] raises
      [upload_status.exceptions.DirectoryError] *)
  write_fails : string -> DirectoryStatus -> bool;
  (** [parsing_handler.parse_and_validate directory] *)
  parse_and_validate_outcome : string -> result SequencingRun;
  (** [api_handler.initialize_api_from_config ()] *)
  initialize_api_outcome : result unit;
  (** [api_handler.prepare_and_validate_for_upload sequencing_run] *)
  prepare_and_validate_outcome : SequencingRun -> result ValidationResult;
  (** [api_handler.upload_sequencing_run sequencing_run] *)
  upload_outcome : SequencingRun -> result unit;
  (** [parsing_handler.get_first_new_run directory]: [None] or a run directory *)
  get_first_new_run_outcome : string -> result (option string)
}.

Definition call_outcome {A : Type} (c : Call) (r : result A) : M A :=
  fun w => (r, record_call c w).

Section Orchestrator.

Variable env : Env.

(** Modelled from the spec: [upload_status.write_directory_status], a
    scoped write of the marker file that fails with [DirectoryError] if
    the directory is not writable, and then leaves the marker as it was. *)
Definition write_directory_status (directory : string) (status : DirectoryStatus) : M unit :=
  fun w =>
    let w' := record_call (Call_write_directory_status directory status) w in
    if write_fails env directory status
    then (Raises (upload_status_DirectoryError "directory is not writable" directory), w')
    else (Returns (), set_marker directory status w').

Definition parse_and_validate (directory : string) : M SequencingRun :=
  call_outcome (Call_parse_and_validate directory) (parse_and_validate_outcome env directory).

Definition initialize_api_from_config : M unit :=
  call_outcome Call_initialize_api_from_config (initialize_api_outcome env).

Definition prepare_and_validate_for_upload (run : SequencingRun) : M ValidationResult :=
  call_outcome (Call_prepare_and_validate_for_upload run) (prepare_and_validate_outcome env run).

Definition upload_sequencing_run (run : SequencingRun) : M unit :=
  call_outcome (Call_upload_sequencing_run run) (upload_outcome env run).

Definition get_first_new_run (directory : string) : M (option string) :=
  call_outcome (Call_get_first_new_run directory) (get_first_new_run_outcome env directory).

(** ** [core/cli_entry.py] *)

Definition logging_start_block : M unit :=
  logging_info "==================================================";;
  logging_info "---------------STARTING UPLOAD RUN----------------";;
  logging_info "Uploader Version {}";;
  logging_info "Logging to file in: ";;
  logging_info "==================================================".

Definition logging_end_block : M unit :=
  logging_info "==================================================";;
  logging_info "----------------ENDING UPLOAD RUN-----------------";;
  logging_info "==================================================".

Definition exit_success : M Z := mret 0.

(** [if run_directory:] is false for [None] and for the empty string. *)
Definition truthy (run_directory : option string) : option string :=
  match run_directory with
  | None => None
  | Some d => if String.eqb d "" then None else Some d
  end.

Definition exit_error (run_directory : option string) : M Z :=
  match truthy run_directory with
  | Some d =>
      try_except
        (write_directory_status d DIRECTORY_STATUS_ERROR)
        (fun e => match e with
                  | upload_status_DirectoryError _ _ =>
                      Some (logging_ERROR "ERROR! Error on exit while trying to write status file to directory {} with error message: {}")
                  | _ => None
                  end)
  | None => mret ()
  end;;
  logging_end_block;;
  mret 1.

Definition validate_and_upload_single_entry (directory : string) : M Z :=
  logging_start_block;;
  logging_debug "validate_and_upload_single_entry:Starting {}";;
  (* Add progress file to directory *)
  proceed _ :=
    try_or_return
      (write_directory_status directory DIRECTORY_STATUS_PARTIAL)
      (fun e => match e with
                | upload_status_DirectoryError _ _ =>
                    Some (logging_ERROR "ERROR! Error while trying to write status file to directory {} with error message: {}";;
                          logging_info "Samples not uploaded!";;
                          exit_error None)
                | _ => None
                end)
  then
  (* Do parsing (Also offline validation) *)
  proceed sequencing_run :=
    try_or_return
      (parse_and_validate directory)
      (fun e => match e with
                | parsers_DirectoryError _ _ =>
                    Some (logging_error "ERROR! An error occurred with directory '{}', with message: {}";;
                          logging_info "Samples not uploaded!";;
                          exit_error (Some directory))
                | ValidationError _ _ =>
                    Some (logging_error "ERROR! Errors occurred during validation with message: {}";;
                          logging_error "Error list: ";;
                          logging_info "Samples not uploaded!";;
                          exit_error (Some directory))
                | _ => None
                end)
  then
  (* Initialize the api for first use *)
  logging_info "*** Connecting to IRIDA ***";;
  proceed _ :=
    try_or_return
      initialize_api_from_config
      (fun e => match e with
                | IridaConnectionError _ =>
                    Some (logging_error "ERROR! Could not initialize irida api.";;
                          logging_error "Errors: ";;
                          logging_info "Samples not uploaded!";;
                          exit_error (Some directory))
                | _ => None
                end)
  then
  logging_info "*** Connected ***";;
  logging_info "*** Verifying run (online validation) ***";;
  proceed validation_result :=
    try_or_return
      (prepare_and_validate_for_upload sequencing_run)
      (fun e => match e with
                | IridaConnectionError _ =>
                    Some (logging_error "Lost connection to Irida";;
                          logging_error "Errors: ";;
                          exit_error (Some directory))
                | _ => None
                end)
  then
  if negb (is_valid validation_result) then
    logging_error "Sequencing run can not be uploaded";;
    logging_error "Sequencing run can not be uploaded. Encountered {} errors";;
    logging_error "Errors: ";;
    exit_error (Some directory)
  else
  logging_info "*** Run Verified ***";;
  (* Start upload *)
  logging_info "*** Starting Upload ***";;
  proceed _ :=
    try_or_return
      (upload_sequencing_run sequencing_run)
      (fun e => match e with
                | IridaConnectionError _ =>
                    Some (logging_error "Lost connection to Irida";;
                          logging_error "Errors: ";;
                          mret 1)
                | _ => None
                end)
  then
  logging_info "*** Upload Complete ***";;
  (* Set progress file to complete *)
  try_except
    (write_directory_status directory DIRECTORY_STATUS_COMPLETE)
    (fun e => match e with
              | upload_status_DirectoryError _ _ =>
                  Some (logging_ERROR "ERROR! Error while trying to write status file to directory {} with error message: {}";;
                        logging_info "Samples were uploaded, but progress file may be incorrect!")
              | _ => None
              end);;
  logging_info "Samples in directory '{}' have finished uploading!";;
  logging_end_block;;
  exit_success.

Definition upload_first_new_run (directory : string) : M Z :=
  logging_debug "upload_first_new_run:Starting {}";;
  logging_info "Finding first new run in directory: {}";;
  first_run ←
    try_except
      (get_first_new_run directory)
      (fun e => match e with
                | parsers_DirectoryError _ _ =>
                    Some (logging_info "Could not read directory while looking for runs";;
                          raise e)
                | _ => None
                end);
  match first_run with
  | None =>
      logging_info "Could not find any new runs in directory: {}";;
      exit_success
  | Some first_run =>
      logging_info "New run found. Starting upload on directory: {}";;
      validate_and_upload_single_entry first_run
  end.

End Orchestrator.

(** ** [iridauploader/parsers/nextseq/parser.py] *)

(** [try: ... except: ...] for code that has no state. *)
Definition result_try_except {A : Type} (body : result A) (handler : exn -> option (result A)) : result A :=
  match body with
  | Returns a => Returns a
  | Raises e =>
      match handler e with
      | Some h => h
      | None => Raises e
      end
  end.

Fixpoint ends_with_slash (s : string) : bool :=
  match s with
  | EmptyString => false
  | String c EmptyString => Ascii.eqb c "/"%char
  | String _ rest => ends_with_slash rest
  end.

Definition starts_with_slash (s : string) : bool :=
  match s with
  | String c _ => Ascii.eqb c "/"%char
  | EmptyString => false
  end.

(** [os.path.join a b] on a POSIX system. *)
Definition os_path_join (a b : string) : string :=
  if starts_with_slash b then b
  else if String.eqb a "" || ends_with_slash a then a +:+ b
  else a +:+ "/" +:+ b.

(** What the parser reads from the operating system and the helpers of the
    modules [common], [validation] and [sample_parser], none of which is
    under [parsers/nextseq/parser.py]. *)
Record ParserEnv : Type := mkParserEnv {
  (** [os.access directory os.W_OK] *)
  os_access_W_OK : string -> bool;
  (** [common.get_file_list directory]: the names of the files in the directory *)
  common_get_file_list : string -> result (list string);
  (** [validation.validate_sample_sheet sample_sheet] *)
  validation_validate_sample_sheet : string -> result ValidationResult;
  (** [sample_parser.parse_metadata sample_sheet] *)
  sample_parser_parse_metadata : string -> result (list (string * string));
  (** [sample_parser.parse_sample_list sample_sheet run_data_directory run_data_directory_file_list] *)
  sample_parser_parse_sample_list : string -> string -> list string -> result (list Sample);
  (** [common.build_sequencing_run_from_samples sample_list run_metadata] *)
  common_build_sequencing_run_from_samples :
    list Sample -> list (string * string) -> result SequencingRun
}.

(** [os.path.dirname p] on a POSIX system: the part of [p] up to its last
    slash, without the trailing slashes unless it consists of slashes only. *)
Fixpoint contains_slash (s : string) : bool :=
  match s with
  | EmptyString => false
  | String c rest => Ascii.eqb c "/"%char || contains_slash rest
  end.

Fixpoint all_slashes (s : string) : bool :=
  match s with
  | EmptyString => true
  | String c rest => Ascii.eqb c "/"%char && all_slashes rest
  end.

(** [p[:p.rfind('/') + 1]] *)
Fixpoint up_to_last_slash (p : string) : string :=
  match p with
  | EmptyString => EmptyString
  | String c rest => if contains_slash p then String c (up_to_last_slash rest) else EmptyString
  end.

(** [head.rstrip('/')] *)
Fixpoint rstrip_slashes (head : string) : string :=
  match head with
  | EmptyString => EmptyString
  | String c rest => if all_slashes head then EmptyString else String c (rstrip_slashes rest)
  end.

Definition os_path_dirname (p : string) : string :=
  let head := up_to_last_slash p in
  if negb (String.eqb head "") && negb (all_slashes head)
  then rstrip_slashes head
  else head.

(** The entry [progress.get_directory_status] returns for a directory.
    Modelled from the spec: the scanner reports a directory with its
    status; the class is not under [parsers/nextseq/parser.py]. *)
Record DirectoryStatusEntry : Type := mkDirectoryStatusEntry {
  entry_directory : string;
  entry_status : DirectoryStatus
}.

(** What the scanning functions of the parser read from outside. *)
Record ScannerEnv : Type := mkScannerEnv {
  (** [common.find_directory_list directory] *)
  common_find_directory_list : string -> result (list string);
  (** [progress.get_directory_status directory required_file_list] *)
  progress_get_directory_status : string -> list string -> result DirectoryStatusEntry;
  (** [next(os.walk(top))] without its first component: the names of the
      directories and of the files in [top]; [None] when [top] cannot be
      listed, where [os.walk] yields nothing *)
  os_walk_top : string -> option (list string * list string)
}.

(** The class [NextSeqDataStruct] and its inner class [NextSeqDataEntry]. *)
Record NextSeqDataEntry : Type := mkNextSeqDataEntry {
  project : string;
  files : list string
}.

Record NextSeqDataStruct : Type := mkNextSeqDataStruct {
  projects : list NextSeqDataEntry;
  data_dir : string
}.

Definition NextSeqDataStruct_init (data_dir : string) : NextSeqDataStruct :=
  mkNextSeqDataStruct [] data_dir.

Definition NextSeqDataStruct_add (self : NextSeqDataStruct)
    (project_dir_name : string) (file_list : list string) : NextSeqDataStruct :=
  mkNextSeqDataStruct
    (projects self ++ [mkNextSeqDataEntry project_dir_name file_list])
    (data_dir self).

(** [next] on a generator that yields nothing raises [StopIteration]. *)
Definition next_os_walk (senv : ScannerEnv) (top : string) : result (list string * list string) :=
  match os_walk_top senv top with
  | Some listing => Returns listing
  | None => Raises (OtherException "StopIteration")
  end.

Module Parser.

Definition SAMPLE_SHEET_FILE_NAME : string := "SampleSheet.csv".
Definition UPLOAD_COMPLETE_FILE_NAME : string := "RTAComplete.txt".

Definition get_required_file_list : result (list string) :=
  logging_warning "NOTE: If bcl2fastq has not finished, run may return as invalid, or incomplete files could be uploaded!";;
  mret [SAMPLE_SHEET_FILE_NAME; UPLOAD_COMPLETE_FILE_NAME].

Definition get_relative_data_directory : string :=
  os_path_join (os_path_join "Data" "Intensities") "BaseCalls".

(** The class [Parser] defines no attribute [get_full_data_directory]:
    looking it up raises [AttributeError] before anything is called. *)
Definition get_full_data_directory (sample_sheet : string) : result string :=
  Raises (AttributeError "type object 'Parser' has no attribute 'get_full_data_directory'").

Section WithParserEnv.

Variable penv : ParserEnv.

Definition get_sample_sheet (directory : string) : result string :=
  logging_info "Looking for sample sheet in {}";;
  (* Checks if we can access to the given directory *)
  (if negb (os_access_W_OK penv directory) then
     logging_error "The directory is not accessible, can not parse samples from this directory {}";;
     Raises (parsers_DirectoryError
               "The directory is not accessible, can not parse samples from this directory {}"
               directory)
   else mret ());;
  let sample_sheet_file_name := SAMPLE_SHEET_FILE_NAME in
  file_list ← common_get_file_list penv directory;
  if negb (bool_decide (sample_sheet_file_name ∈ file_list)) then
    logging_error "No sample sheet file in the NextSeq format found";;
    Raises (parsers_DirectoryError
              "The directory {} has no sample sheet file in the NextSeq format with the name {}"
              directory)
  else
    logging_debug "Sample sheet found";;
    mret (os_path_join directory sample_sheet_file_name).

Definition get_sequencing_run (sample_sheet : string)
    (run_data_directory : option string)
    (run_data_directory_file_list : option (list string)) : result SequencingRun :=
  (* get data directory and file list *)
  let validation_result := new_ValidationResult in
  '(run_data_directory, run_data_directory_file_list) ←
    result_try_except
      (run_data_directory ←
         match run_data_directory with
         | None => get_full_data_directory sample_sheet
         | Some d => mret d
         end;
       run_data_directory_file_list ←
         match run_data_directory_file_list with
         | None => common_get_file_list penv run_data_directory
         | Some l => mret l
         end;
       mret (run_data_directory, run_data_directory_file_list))
      (fun error =>
         match error with
         | parsers_DirectoryError _ _ =>
             Some (let validation_result := add_error validation_result error in
                   logging_error "Errors occurred while parsing files";;
                   Raises (ValidationError "Errors occurred while parsing files"
                                           (error_list validation_result)))
         | _ => None
         end);
  (* Try to get the sample sheet, validate that the sample sheet is valid *)
  validation_result ← validation_validate_sample_sheet penv sample_sheet;
  (if negb (is_valid validation_result) then
     logging_error "Errors occurred while getting sample sheet";;
     Raises (ValidationError "Errors occurred while getting sample sheet"
                             (error_list validation_result))
   else mret ());;
  (* Try to parse the meta data from the sample sheet *)
  let validation_result := new_ValidationResult in
  run_metadata ←
    result_try_except
      (sample_parser_parse_metadata penv sample_sheet)
      (fun error =>
         match error with
         | SampleSheetError _ _ =>
             Some (let validation_result := add_error validation_result error in
                   logging_error "Errors occurred while parsing metadata";;
                   Raises (ValidationError "Errors occurred while parsing metadata"
                                           (error_list validation_result)))
         | _ => None
         end);
  (* Try to build sequencing run from sample sheet & meta data *)
  sequencing_run ←
    result_try_except
      (sample_list ← sample_parser_parse_sample_list penv sample_sheet run_data_directory
                       run_data_directory_file_list;
       common_build_sequencing_run_from_samples penv sample_list run_metadata)
      (fun error =>
         match error with
         | SequenceFileError _ =>
             Some (let validation_result := add_error validation_result error in
                   logging_error "Errors occurred while building sequence run from sample sheet";;
                   Raises (ValidationError "Errors occurred while building sequence run from sample sheet"
                                           (error_list validation_result)))
         | _ => None
         end);
  mret sequencing_run.

End WithParserEnv.

Section WithScannerEnv.

Variable senv : ScannerEnv.

Fixpoint get_nextseq_data_struct_loop (data_dir : string)
    (project_dir_list : list string) (nextseq_data_struct : NextSeqDataStruct)
    : result NextSeqDataStruct :=
  match project_dir_list with
  | [] => mret nextseq_data_struct
  | project_dir :: rest =>
      let project_data_dir := os_path_join data_dir project_dir in
      '(_, data_dir_file_list) ← next_os_walk senv project_data_dir;
      get_nextseq_data_struct_loop data_dir rest
        (NextSeqDataStruct_add nextseq_data_struct project_dir data_dir_file_list)
  end.

Definition get_nextseq_data_struct (sample_sheet : string) : result NextSeqDataStruct :=
  let sample_sheet_dir := os_path_dirname sample_sheet in
  let data_dir := os_path_join sample_sheet_dir get_relative_data_directory in
  (* Get the list of project directories that contain sample files *)
  '(project_dir_list, _) ← next_os_walk senv data_dir;
  let nextseq_data_struct := NextSeqDataStruct_init data_dir in
  get_nextseq_data_struct_loop data_dir project_dir_list nextseq_data_struct.

Fixpoint find_runs_loop (directory_list : list string) (runs : list DirectoryStatusEntry)
    : result (list DirectoryStatusEntry) :=
  match directory_list with
  | [] => mret runs
  | d :: rest =>
      required_file_list ← get_required_file_list;
      run ← progress_get_directory_status senv d required_file_list;
      find_runs_loop rest (runs ++ [run])
  end.

Definition find_runs (directory : string) : result (list DirectoryStatusEntry) :=
  logging_info "looking for runs in {}";;
  let runs := [] in
  directory_list ← common_find_directory_list senv directory;
  find_runs_loop directory_list runs.

Definition find_single_run (directory : string) : result DirectoryStatusEntry :=
  logging_info "looking for run in {}";;
  required_file_list ← get_required_file_list;
  progress_get_directory_status senv directory required_file_list.

End WithScannerEnv.

End Parser.

(** ** Observing a run of the orchestrator *)

(** The calls made between two worlds of one run. *)
Definition calls_since (w w' : World) : list Call :=
  drop (length (calls w)) (calls w').

Definition written_status (c : Call) : option DirectoryStatus :=
  match c with
  | Call_write_directory_status _ s => Some s
  | _ => None
  end.

(** The statuses handed to [write_directory_status], in order. *)
Definition written_statuses (l : list Call) : list DirectoryStatus :=
  omap written_status l.

Definition is_upload (c : Call) : bool :=
  match c with
  | Call_upload_sequencing_run _ => true
  | _ => false
  end.

Definition upload_invoked (l : list Call) : bool := existsb is_upload l.

(** Every stage that precedes the transmission of the files succeeds. *)
Definition stages_before_upload_succeed (env : Env) (directory : string) : Prop :=
  write_fails env directory DIRECTORY_STATUS_PARTIAL = false /\
  exists run vr,
    parse_and_validate_outcome env directory = Returns run /\
    initialize_api_outcome env = Returns () /\
    prepare_and_validate_outcome env run = Returns vr /\
    is_valid vr = true.

(** ** Concrete scenarios *)

Definition a_run : SequencingRun :=
  mkSequencingRun [("Assay", "NextSeq")]
    [mkProject "6" [mkSample "01-1111" "6" ["01-1111_S1_L001_R1_001.fastq.gz"]]].

Definition no_markers : World := mkWorld ∅ [].

(** Every collaborator succeeds. *)
Definition env_all_succeed : Env :=
  mkEnv (fun _ _ => false) (fun _ => Returns a_run) (Returns ())
        (fun _ => Returns new_ValidationResult) (fun _ => Returns ())
        (fun _ => Returns None).

(** The connection is lost while the files are transmitted. *)
Definition env_upload_disconnects : Env :=
  mkEnv (fun _ _ => false) (fun _ => Returns a_run) (Returns ())
        (fun _ => Returns new_ValidationResult)
        (fun _ => Raises (IridaConnectionError ["connection reset"]))
        (fun _ => Returns None).

(** The remote service refuses the session. *)
Definition env_connection_refused : Env :=
  mkEnv (fun _ _ => false) (fun _ => Returns a_run)
        (Raises (IridaConnectionError ["connection refused"]))
        (fun _ => Returns new_ValidationResult) (fun _ => Returns ())
        (fun _ => Returns None).

(** The connection is lost during online validation. *)
Definition env_online_validation_disconnects : Env :=
  mkEnv (fun _ _ => false) (fun _ => Returns a_run) (Returns ())
        (fun _ => Raises (IridaConnectionError ["connection reset"]))
        (fun _ => Returns ()) (fun _ => Returns None).

(** A directory whose earlier upload finished. *)
Definition marked_complete : World :=
  mkWorld {[ "run_1" := DIRECTORY_STATUS_COMPLETE ]} [].

(** The marker file cannot be written once the files are transmitted. *)
Definition env_complete_write_fails : Env :=
  mkEnv (fun _ s => bool_decide (s = DIRECTORY_STATUS_COMPLETE))
        (fun _ => Returns a_run) (Returns ())
        (fun _ => Returns new_ValidationResult) (fun _ => Returns ())
        (fun _ => Returns None).

(** The run directory is not writable when the upload starts. *)
Definition env_partial_write_fails : Env :=
  mkEnv (fun _ s => bool_decide (s = DIRECTORY_STATUS_PARTIAL))
        (fun _ => Returns a_run) (Returns ())
        (fun _ => Returns new_ValidationResult) (fun _ => Returns ())
        (fun _ => Returns None).

(** The ERROR marker cannot be written. *)
Definition env_error_write_fails : Env :=
  mkEnv (fun _ s => bool_decide (s = DIRECTORY_STATUS_ERROR))
        (fun _ => Returns a_run) (Returns ())
        (fun _ => Returns new_ValidationResult) (fun _ => Returns ())
        (fun _ => Returns None).

(** The directory of runs cannot be read. *)
Definition env_root_unreadable : Env :=
  mkEnv (fun _ _ => false) (fun _ => Returns a_run) (Returns ())
        (fun _ => Returns new_ValidationResult) (fun _ => Returns ())
        (fun d => Raises (parsers_DirectoryError "Could not list directories" d)).

(** The sample sheet of the first new run does not validate. *)
Definition env_invalid_sheet : Env :=
  mkEnv (fun _ _ => false)
        (fun _ => Raises (ValidationError "Errors occurred while getting sample sheet"
                            [SampleSheetError "[Header] section not found" "SampleSheet.csv"]))
        (Returns ())
        (fun _ => Returns new_ValidationResult) (fun _ => Returns ())
        (fun _ => Returns (Some "run_1")).

(** ** Domain errors *)

(** The errors the orchestrator names in its handlers of the parsing stage. *)
Definition parse_domain_outcome (r : result SequencingRun) : Prop :=
  match r with
  | Returns _ => True
  | Raises (parsers_DirectoryError _ _) => True
  | Raises (ValidationError _ _) => True
  | Raises _ => False
  end.

(** A call to the remote service returns or raises a connection error. *)
Definition api_domain_outcome {A : Type} (r : result A) : Prop :=
  match r with
  | Returns _ => True
  | Raises (IridaConnectionError _) => True
  | Raises _ => False
  end.

Definition raises_domain_errors_only (env : Env) : Prop :=
  (forall d, parse_domain_outcome (parse_and_validate_outcome env d)) /\
  api_domain_outcome (initialize_api_outcome env) /\
  (forall run, api_domain_outcome (prepare_and_validate_outcome env run)) /\
  (forall run, api_domain_outcome (upload_outcome env run)).

Definition status_writes_succeed (env : Env) : Prop :=
  forall d s, write_fails env d s = false.

Definition defined_exit_code (r : result Z) : Prop :=
  r = Returns 0 \/ r = Returns 1.

(** ** Persisted statuses *)

Definition persistable (s : DirectoryStatus) : bool :=
  match s with
  | DIRECTORY_STATUS_PARTIAL | DIRECTORY_STATUS_ERROR | DIRECTORY_STATUS_COMPLETE => true
  | DIRECTORY_STATUS_NEW | DIRECTORY_STATUS_INVALID => false
  end.

(** A computation whose writes of a status marker, attempted or done, all
    carry PARTIAL, ERROR or COMPLETE: the calls it adds hand no other status
    to [write_directory_status] and every marker is as before or holds
    one of the three. *)
Definition persists_only {A : Type} (m : M A) : Prop :=
  forall w,
    (exists l, calls (m w).2 = calls w ++ l /\
               Forall (fun s => persistable s = true) (written_statuses l)) /\
    (forall d, markers (m w).2 !! d = markers w !! d \/
               exists s, markers (m w).2 !! d = Some s /\ persistable s = true).

(** Between the worlds [w] and [w'] only PARTIAL, ERROR and COMPLETE were
    handed to the status store, and no marker holds another new value. *)
Definition only_partial_error_complete_written (w w' : World) : Prop :=
  (forall s, s ∈ written_statuses (calls_since w w') ->
             s = DIRECTORY_STATUS_PARTIAL \/ s = DIRECTORY_STATUS_ERROR \/
             s = DIRECTORY_STATUS_COMPLETE) /\
  (forall d, markers w' !! d = markers w !! d \/
             markers w' !! d = Some DIRECTORY_STATUS_PARTIAL \/
             markers w' !! d = Some DIRECTORY_STATUS_ERROR \/
             markers w' !! d = Some DIRECTORY_STATUS_COMPLETE).

(** ** Parser scenarios *)

Definition a_sample : Sample :=
  mkSample "01-1111" "6" ["01-1111_S1_L001_R1_001.fastq.gz"].

(** A writable run directory that holds the sample sheet; the sheet
    validates and its samples resolve. *)
Definition penv_complete_run : ParserEnv :=
  mkParserEnv (fun _ => true)
    (fun _ => Returns ["RTAComplete.txt"; "SampleSheet.csv"])
    (fun _ => Returns new_ValidationResult)
    (fun _ => Returns [("Assay", "NextSeq")])
    (fun _ _ _ => Returns [a_sample])
    (fun samples md => Returns (mkSequencingRun md [mkProject "6" samples])).

(** The sheet lists the samples 01-1111 and 02-2222; the files of 02-2222
    are in the data directory, those of 01-1111 are not, and the sample
    parser raises a SequenceFileError for 01-1111. *)
Definition penv_missing_fastq : ParserEnv :=
  mkParserEnv (fun _ => true)
    (fun _ => Returns ["RTAComplete.txt"; "SampleSheet.csv"])
    (fun _ => Returns new_ValidationResult)
    (fun _ => Returns [("Assay", "NextSeq")])
    (fun _ _ _ => Raises (SequenceFileError "No files found for sample 01-1111"))
    (fun samples md => Returns (mkSequencingRun md [mkProject "6" samples])).

Definition fastq_of_second_sample : list string :=
  ["02-2222_S2_L001_R1_001.fastq.gz"; "02-2222_S2_L001_R2_001.fastq.gz"].

(** ** Courses of a run *)

(** Every stage of the orchestrator succeeds, the two marker writes included. *)
Definition all_stages_succeed (env : Env) (directory : string) : Prop :=
  write_fails env directory DIRECTORY_STATUS_PARTIAL = false /\
  write_fails env directory DIRECTORY_STATUS_COMPLETE = false /\
  exists run vr,
    parse_and_validate_outcome env directory = Returns run /\
    initialize_api_outcome env = Returns () /\
    prepare_and_validate_outcome env run = Returns vr /\
    is_valid vr = true /\
    upload_outcome env run = Returns ().

(** The calls of the stages in the order of the source, up to the upload. *)
Definition stage_calls (directory : string) (run : SequencingRun) : list Call :=
  [Call_write_directory_status directory DIRECTORY_STATUS_PARTIAL;
   Call_parse_and_validate directory;
   Call_initialize_api_from_config;
   Call_prepare_and_validate_for_upload run;
   Call_upload_sequencing_run run].

(** A write of the status that ends a run, or no write. *)
Definition closing_write (directory : string) (l : list Call) : Prop :=
  l = [] \/
  l = [Call_write_directory_status directory DIRECTORY_STATUS_ERROR] \/
  l = [Call_write_directory_status directory DIRECTORY_STATUS_COMPLETE].

Definition empty_run : SequencingRun := mkSequencingRun [] [].

(** A collaborator raises [e], an exception of a class that the handler
    around its call does not name; the stages before it succeeded. *)
Definition stage_raises_unhandled (env : Env) (directory : string) (e : exn) : Prop :=
  (parse_and_validate_outcome env directory = Raises e /\
   ~ parse_domain_outcome (Raises e)) \/
  (exists run,
     parse_and_validate_outcome env directory = Returns run /\
     ~ api_domain_outcome (Raises e : result unit) /\
     (initialize_api_outcome env = Raises e \/
      (initialize_api_outcome env = Returns () /\
       (prepare_and_validate_outcome env run = Raises e \/
        exists vr, prepare_and_validate_outcome env run = Returns vr /\
                   is_valid vr = true /\
                   upload_outcome env run = Raises e)))).

(** The remote service answers that the run cannot be uploaded. *)
Definition env_online_rejects : Env :=
  mkEnv (fun _ _ => false) (fun _ => Returns a_run) (Returns ())
        (fun _ => Returns (mkValidationResult
                             [OtherException "project 6 does not exist"]))
        (fun _ => Returns ()) (fun _ => Returns None).

(** The parsing handler fails with an exception of another class. *)
Definition env_parse_crashes : Env :=
  mkEnv (fun _ _ => false) (fun _ => Raises (OtherException "KeyError")) (Returns ())
        (fun _ => Returns new_ValidationResult) (fun _ => Returns ())
        (fun _ => Returns None).

(** A new run is found and every stage succeeds on it. *)
Definition env_new_run_found : Env :=
  mkEnv (fun _ _ => false) (fun _ => Returns a_run) (Returns ())
        (fun _ => Returns new_ValidationResult) (fun _ => Returns ())
        (fun _ => Returns (Some "/runs/run_1")).

(** ** Courses of the parser *)

Definition raises_ValidationError {A : Type} (r : result A) : Prop :=
  match r with
  | Raises (ValidationError _ _) => True
  | _ => False
  end.

(** The data directory of the run cannot be listed. *)
Definition penv_no_data_directory : ParserEnv :=
  mkParserEnv (fun _ => true)
    (fun d => Raises (parsers_DirectoryError
                        "Could not list files, as directory does not exist." d))
    (fun _ => Returns new_ValidationResult)
    (fun _ => Returns [("Assay", "NextSeq")])
    (fun _ _ _ => Returns [a_sample])
    (fun samples md => Returns (mkSequencingRun md [mkProject "6" samples])).

(** Two run directories under [/runs]; the data directory of the first
    holds the project directories 6 and 7. *)
Definition senv_two_runs : ScannerEnv :=
  mkScannerEnv
    (fun _ => Returns ["/runs/run_1"; "/runs/run_2"])
    (fun d _ =>
       Returns (mkDirectoryStatusEntry d
                  (if String.eqb d "/runs/run_1" then DIRECTORY_STATUS_NEW
                   else DIRECTORY_STATUS_COMPLETE)))
    (fun top =>
       if String.eqb top "/runs/run_1/Data/Intensities/BaseCalls"
       then Some (["6"; "7"], ["Undetermined_S0_R1_001.fastq.gz"])
       else if String.eqb top "/runs/run_1/Data/Intensities/BaseCalls/6"
       then Some ([], ["01-1111_S1_L001_R1_001.fastq.gz"])
       else if String.eqb top "/runs/run_1/Data/Intensities/BaseCalls/7"
       then Some ([], ["02-2222_S2_L001_R1_001.fastq.gz"])
       else None).

(** The status of the second run directory cannot be read. *)
Definition senv_second_run_unreadable : ScannerEnv :=
  mkScannerEnv
    (fun _ => Returns ["/runs/run_1"; "/runs/run_2"; "/runs/run_3"])
    (fun d _ =>
       if String.eqb d "/runs/run_2"
       then Raises (upload_status_DirectoryError "cannot read status file" d)
       else Returns (mkDirectoryStatusEntry d DIRECTORY_STATUS_NEW))
    (fun _ => None).

(** A project directory [p] of the data directory [dd] and the entry made
    for it: the entry has the name of [p] and the files listed in [p]. *)
Definition entry_of_project (senv : ScannerEnv) (dd p : string)
    (entry : NextSeqDataEntry) : Prop :=
  project entry = p /\
  exists subdirectories,
    os_walk_top senv (os_path_join dd p) = Some (subdirectories, files entry).

(** The files a run directory must hold, as [get_required_file_list] gives them. *)
Definition required_files : list string :=
  [Parser.SAMPLE_SHEET_FILE_NAME; Parser.UPLOAD_COMPLETE_FILE_NAME].

(** ** Courses of [get_sample_sheet] and [get_sequencing_run] *)

(** The run directory does not exist: it is not accessible and listing it
    fails with an error of the operating system. *)
Definition penv_missing_directory : ParserEnv :=
  mkParserEnv (fun _ => false)
    (fun _ => Raises (OtherException "StopIteration"))
    (fun _ => Returns new_ValidationResult)
    (fun _ => Returns [("Assay", "NextSeq")])
    (fun _ _ _ => Returns [a_sample])
    (fun samples md => Returns (mkSequencingRun md [mkProject "6" samples])).

(** The file list [get_sequencing_run] works with: the one supplied, or
    else the listing of the data directory. *)
Definition file_list_or_listing (penv : ParserEnv) (d : string)
    (run_data_directory_file_list : option (list string)) : result (list string) :=
  match run_data_directory_file_list with
  | Some l => Returns l
  | None => common_get_file_list penv d
  end.

(** What the stages after the file listing make of the outcomes of their
    helpers, on the data directory [d] with the file list [l].  An
    invalid validator result is surfaced whole; a valid one holds no error
    when the next stage starts from a fresh result; the metadata stage
    surfaces exactly the SampleSheetError raised and the sample stage
    exactly the SequenceFileError raised by the sample parser or the run
    builder; an exception of another class is passed on; without an
    exception the run built is returned. *)
Definition surfaces_stage_errors (penv : ParserEnv) (sample_sheet d : string)
    (l : list string) (outcome : result SequencingRun) : Prop :=
  match validation_validate_sample_sheet penv sample_sheet with
  | Raises e => outcome = Raises e
  | Returns vr =>
      (is_valid vr = false ->
       outcome = Raises (ValidationError "Errors occurred while getting sample sheet"
                           (error_list vr))) /\
      (is_valid vr = true ->
       error_list vr = [] /\
       match sample_parser_parse_metadata penv sample_sheet with
       | Raises (SampleSheetError m s) =>
           outcome = Raises (ValidationError "Errors occurred while parsing metadata"
                               [SampleSheetError m s])
       | Raises e => outcome = Raises e
       | Returns md =>
           match sample_parser_parse_sample_list penv sample_sheet d l with
           | Raises (SequenceFileError m) =>
               outcome =
                 Raises (ValidationError
                           "Errors occurred while building sequence run from sample sheet"
                           [SequenceFileError m])
           | Raises e => outcome = Raises e
           | Returns sample_list =>
               match common_build_sequencing_run_from_samples penv sample_list md with
               | Raises (SequenceFileError m) =>
                   outcome =
                     Raises (ValidationError
                               "Errors occurred while building sequence run from sample sheet"
                               [SequenceFileError m])
               | Raises e => outcome = Raises e
               | Returns run => outcome = Returns run
               end
           end
       end)
  end.

(** ** Symbolic execution of the orchestrator *)

Ltac unfold_orchestrator :=
  unfold upload_first_new_run, validate_and_upload_single_entry, exit_error,
    exit_success, logging_start_block, logging_end_block, continue_with,
    try_or_return, try_except, write_directory_status, parse_and_validate,
    initialize_api_from_config, prepare_and_validate_for_upload,
    upload_sequencing_run, get_first_new_run, call_outcome, logging_ERROR,
    raise, logging_debug, logging_info, logging_error, truthy,
    mbind, M_bind, mret, M_ret.

Lemma calls_since_app (w w' : World) (l : list Call) :
  calls w' = calls w ++ l -> calls_since w w' = l.
Proof. intros H. unfold calls_since. rewrite H. apply drop_app_length. Qed.

(** C3: when the connection is lost during the upload stage, after the
    PARTIAL marker was written and parsing, connecting and online
    validation succeeded, the orchestrator returns 1 and writes no further
    status: the only status written is PARTIAL and the marker of the
    directory is PARTIAL. *)
Theorem upload_connection_lost_keeps_partial
    (env : Env) (directory : string) (w : World)
    (run : SequencingRun) (vr : ValidationResult) (args : list string) :
  write_fails env directory DIRECTORY_STATUS_PARTIAL = false ->
  parse_and_validate_outcome env directory = Returns run ->
  initialize_api_outcome env = Returns () ->
  prepare_and_validate_outcome env run = Returns vr ->
  is_valid vr = true ->
  upload_outcome env run = Raises (IridaConnectionError args) ->
  let '(r, w') := validate_and_upload_single_entry env directory w in
  r = Returns 1 /\
  read_directory_status w' directory = DIRECTORY_STATUS_PARTIAL /\
  markers w' = <[directory := DIRECTORY_STATUS_PARTIAL]> (markers w) /\
  written_statuses (calls_since w w') = [DIRECTORY_STATUS_PARTIAL].
Proof.
  intros Hw Hp Hc Hv Hvalid Hu.
  unfold_orchestrator. cbn.
  rewrite Hw; cbn. rewrite Hp; cbn. rewrite Hc; cbn. rewrite Hv; cbn.
  rewrite Hvalid; cbn. rewrite Hu; cbn.
  repeat split.
  - unfold read_directory_status; cbn. by rewrite lookup_insert_eq.
  - erewrite calls_since_app; [|cbn; rewrite <- !app_assoc; reflexivity].
    reflexivity.
Qed.

Lemma upload_connection_lost_keeps_partial_witness :
  let '(r, w') := validate_and_upload_single_entry env_upload_disconnects "run_1" no_markers in
  r = Returns 1 /\
  read_directory_status w' "run_1" = DIRECTORY_STATUS_PARTIAL /\
  markers w' = <[ "run_1" := DIRECTORY_STATUS_PARTIAL]> (markers no_markers) /\
  written_statuses (calls_since no_markers w') = [DIRECTORY_STATUS_PARTIAL].
Proof.
  apply (upload_connection_lost_keeps_partial env_upload_disconnects "run_1" no_markers
           a_run new_ValidationResult ["connection reset"]); reflexivity.
Defined.

Ltac explore_outcomes :=
  repeat (cbn;
          match goal with
          | |- context [match ?x with _ => _ end] => is_var x; destruct x
          | |- context [get_first_new_run_outcome ?e ?d] =>
              destruct (get_first_new_run_outcome e d) eqn:?
          | |- context [write_fails ?e ?d DIRECTORY_STATUS_PARTIAL] =>
              destruct (write_fails e d DIRECTORY_STATUS_PARTIAL) eqn:?
          | |- context [parse_and_validate_outcome ?e ?d] =>
              destruct (parse_and_validate_outcome e d) eqn:?
          | |- context [initialize_api_outcome ?e] =>
              destruct (initialize_api_outcome e) eqn:?
          | |- context [prepare_and_validate_outcome ?e ?r] =>
              destruct (prepare_and_validate_outcome e r) eqn:?
          | |- context [is_valid ?v] => destruct (is_valid v) eqn:?
          | |- context [upload_outcome ?e ?r] => destruct (upload_outcome e r) eqn:?
          | |- context [String.eqb ?d ""] => destruct (String.eqb d "") eqn:?
          | |- context [write_fails ?e ?d ?s] => destruct (write_fails e d s) eqn:?
          end); cbn.

Ltac settle_calls :=
  erewrite calls_since_app; [|cbn; rewrite <- ?app_assoc; reflexivity].

(** C1, as stated, fails: when the session cannot be established, and
    likewise when the connection is lost during online validation, the
    orchestrator returns 1 but has rewritten the marker, which was PARTIAL
    before the connection attempt, to ERROR. *)
Lemma connection_failure_rewrites_status :
  (let '(r, w') := validate_and_upload_single_entry env_connection_refused "run_1" no_markers in
   r = Returns 1 /\
   written_statuses (calls_since no_markers w') =
     [DIRECTORY_STATUS_PARTIAL; DIRECTORY_STATUS_ERROR] /\
   read_directory_status w' "run_1" = DIRECTORY_STATUS_ERROR /\
   read_directory_status w' "run_1" <> DIRECTORY_STATUS_PARTIAL) /\
  (let '(r, w') :=
     validate_and_upload_single_entry env_online_validation_disconnects "run_1" no_markers in
   r = Returns 1 /\
   written_statuses (calls_since no_markers w') =
     [DIRECTORY_STATUS_PARTIAL; DIRECTORY_STATUS_ERROR] /\
   read_directory_status w' "run_1" = DIRECTORY_STATUS_ERROR /\
   read_directory_status w' "run_1" <> DIRECTORY_STATUS_PARTIAL).
Proof. vm_compute. repeat split; discriminate. Qed.

(** C1, amended: when establishing the session fails with a connection
    error, or the connection is lost during online validation, the
    orchestrator (on a directory with a non-empty path whose marker can be
    written) returns 1 after rewriting the marker from PARTIAL to ERROR,
    and the upload operation is not invoked. *)
Theorem connection_failure_marks_error
    (env : Env) (directory : string) (w : World)
    (run : SequencingRun) (args : list string) :
  directory <> "" ->
  write_fails env directory DIRECTORY_STATUS_PARTIAL = false ->
  write_fails env directory DIRECTORY_STATUS_ERROR = false ->
  parse_and_validate_outcome env directory = Returns run ->
  initialize_api_outcome env = Raises (IridaConnectionError args) \/
  (initialize_api_outcome env = Returns () /\
   prepare_and_validate_outcome env run = Raises (IridaConnectionError args)) ->
  let '(r, w') := validate_and_upload_single_entry env directory w in
  r = Returns 1 /\
  written_statuses (calls_since w w') =
    [DIRECTORY_STATUS_PARTIAL; DIRECTORY_STATUS_ERROR] /\
  read_directory_status w' directory = DIRECTORY_STATUS_ERROR /\
  markers w' = <[directory := DIRECTORY_STATUS_ERROR]> (markers w) /\
  upload_invoked (calls_since w w') = false.
Proof.
  intros Hdir Hw He Hp Hfail.
  apply String.eqb_neq in Hdir.
  unfold_orchestrator. cbn.
  rewrite Hw; cbn. rewrite Hp; cbn.
  destruct Hfail as [Hc | [Hc Hv]].
  - rewrite Hc; cbn. rewrite Hdir; cbn. rewrite He; cbn.
    settle_calls. unfold read_directory_status; cbn.
    rewrite lookup_insert_eq, insert_insert_eq. done.
  - rewrite Hc; cbn. rewrite Hv; cbn. rewrite Hdir; cbn. rewrite He; cbn.
    settle_calls. unfold read_directory_status; cbn.
    rewrite lookup_insert_eq, insert_insert_eq. done.
Qed.

Lemma connection_failure_marks_error_witness :
  let '(r, w') := validate_and_upload_single_entry env_connection_refused "run_1" no_markers in
  r = Returns 1 /\
  written_statuses (calls_since no_markers w') =
    [DIRECTORY_STATUS_PARTIAL; DIRECTORY_STATUS_ERROR] /\
  read_directory_status w' "run_1" = DIRECTORY_STATUS_ERROR /\
  markers w' = <[ "run_1" := DIRECTORY_STATUS_ERROR]> (markers no_markers) /\
  upload_invoked (calls_since no_markers w') = false.
Proof.
  apply (connection_failure_marks_error env_connection_refused "run_1" no_markers
           a_run ["connection refused"]);
    [discriminate | reflexivity | reflexivity | reflexivity | left; reflexivity].
Defined.

(** C2, as stated, fails: the orchestrator does not look at the marker.
    On a directory marked COMPLETE, with every stage succeeding, it calls
    the upload operation again. *)
Lemma complete_directory_is_uploaded_again :
  read_directory_status marked_complete "run_1" = DIRECTORY_STATUS_COMPLETE /\
  let '(r, w') := validate_and_upload_single_entry env_all_succeed "run_1" marked_complete in
  r = Returns 0 /\
  upload_invoked (calls_since marked_complete w') = true /\
  Call_upload_sequencing_run a_run ∈ calls_since marked_complete w'.
Proof.
  vm_compute. repeat split. do 4 apply list_elem_of_further. apply list_elem_of_here.
Qed.

(** C2, amended: on a directory marked COMPLETE the orchestrator invokes
    the upload operation exactly when writing the PARTIAL marker, parsing,
    connecting and online validation all succeed; the marker found on disk
    does not enter the decision. *)
Theorem complete_directory_upload_iff_stages_succeed
    (env : Env) (directory : string) (w : World) :
  read_directory_status w directory = DIRECTORY_STATUS_COMPLETE ->
  upload_invoked
    (calls_since w (validate_and_upload_single_entry env directory w).2) = true
  <-> stages_before_upload_succeed env directory.
Proof.
  intros _.
  unfold_orchestrator.
  explore_outcomes; settle_calls; cbn; unfold stages_before_upload_succeed;
    repeat match goal with u : unit |- _ => destruct u end;
    (split;
     [ first [ discriminate | intros _; split; [done | eauto 10] ]
     | intros (? & ? & ? & ? & ? & ? & ?); congruence ]).
Qed.

Lemma complete_directory_upload_iff_stages_succeed_witness :
  upload_invoked
    (calls_since marked_complete
       (validate_and_upload_single_entry env_all_succeed "run_1" marked_complete).2) = true
  <-> stages_before_upload_succeed env_all_succeed "run_1".
Proof.
  apply (complete_directory_upload_iff_stages_succeed env_all_succeed "run_1" marked_complete).
  reflexivity.
Defined.

(** C4, as stated, fails: when the directory of runs cannot be read,
    [upload_first_new_run] logs and raises the DirectoryError again, so the
    caller gets an exception and no exit code. *)
Lemma unreadable_root_propagates :
  (upload_first_new_run env_root_unreadable "/runs" no_markers).1 =
    Raises (parsers_DirectoryError "Could not list directories" "/runs") /\
  ~ defined_exit_code (upload_first_new_run env_root_unreadable "/runs" no_markers).1.
Proof.
  split; [reflexivity|]. intros [H | H]; vm_compute in H; discriminate.
Qed.

(** C4, amended: while the status markers can be written, every error
    that parsing, validation, connecting or uploading raises (a
    DirectoryError or ValidationError of the parsers, a connection error of
    the remote service) makes [validate_and_upload_single_entry] return 0
    or 1; [upload_first_new_run] returns 0 when no new run is found and 0 or
    1 when one is found, and it raises again whatever the search for runs
    raised. *)
Theorem domain_errors_give_exit_code (env : Env) :
  status_writes_succeed env ->
  raises_domain_errors_only env ->
  (forall directory w,
     defined_exit_code (validate_and_upload_single_entry env directory w).1) /\
  (forall directory w,
     match get_first_new_run_outcome env directory with
     | Returns None => (upload_first_new_run env directory w).1 = Returns 0
     | Returns (Some _) => defined_exit_code (upload_first_new_run env directory w).1
     | Raises e => (upload_first_new_run env directory w).1 = Raises e
     end).
Proof.
  intros Hw (Hp & Hc & Hv & Hu).
  assert (Hsingle : forall directory w,
             defined_exit_code (validate_and_upload_single_entry env directory w).1).
  { intros directory w. pose proof (Hp directory) as Hp'.
    unfold defined_exit_code. unfold_orchestrator.
    explore_outcomes;
      repeat match goal with
             | H : write_fails _ _ _ = true |- _ => rewrite Hw in H; discriminate H
             | H : prepare_and_validate_outcome _ ?r = _ |- _ =>
                 let X := fresh in pose proof (Hv r) as X; rewrite H in X; clear H
             | H : upload_outcome _ ?r = _ |- _ =>
                 let X := fresh in pose proof (Hu r) as X; rewrite H in X; clear H
             end;
      cbn in *; first [ contradiction | by left | by right ]. }
  split; [exact Hsingle|].
  intros directory w.
  destruct (get_first_new_run_outcome env directory) as [[first_run|]|e] eqn:Hfirst.
  - specialize (Hsingle first_run
                  (record_call (Call_get_first_new_run directory) w)).
    revert Hsingle. unfold upload_first_new_run at 1.
    unfold try_except, get_first_new_run, call_outcome, logging_debug, logging_info,
      mbind, M_bind, mret, M_ret. cbn. rewrite Hfirst. cbn. done.
  - unfold_orchestrator. cbn. rewrite Hfirst. reflexivity.
  - unfold_orchestrator. cbn. rewrite Hfirst. by destruct e.
Qed.

Lemma domain_errors_give_exit_code_witness :
  (forall directory w,
     defined_exit_code
       (validate_and_upload_single_entry env_invalid_sheet directory w).1) /\
  (forall directory w,
     match get_first_new_run_outcome env_invalid_sheet directory with
     | Returns None => (upload_first_new_run env_invalid_sheet directory w).1 = Returns 0
     | Returns (Some _) =>
         defined_exit_code (upload_first_new_run env_invalid_sheet directory w).1
     | Raises e => (upload_first_new_run env_invalid_sheet directory w).1 = Raises e
     end).
Proof.
  apply (domain_errors_give_exit_code env_invalid_sheet).
  - intros d s. reflexivity.
  - repeat split; intros; exact I.
Defined.

(** C5 on the code: every stage up to the transmission succeeds and the
    write of the COMPLETE marker raises a DirectoryError.  The handler
    calls [logging.ERROR], an integer, so the orchestrator raises TypeError
    and returns no exit code, the files having been uploaded. *)
Theorem complete_write_failure_raises_TypeError :
  let '(r, w') :=
    validate_and_upload_single_entry env_complete_write_fails "run_1" no_markers in
  r = Raises (TypeError "'int' object is not callable") /\
  r <> Returns 0 /\
  upload_invoked (calls_since no_markers w') = true /\
  read_directory_status w' "run_1" = DIRECTORY_STATUS_PARTIAL.
Proof. vm_compute. repeat split. discriminate. Qed.

(** C6 on the code: the directory is marked COMPLETE and the write of the
    PARTIAL marker raises a DirectoryError.  No further stage runs and the
    marker is still COMPLETE, but the handler calls [logging.ERROR], an
    integer, so the orchestrator raises TypeError and does not return 1. *)
Theorem partial_write_failure_raises_TypeError :
  let '(r, w') :=
    validate_and_upload_single_entry env_partial_write_fails "run_1" marked_complete in
  r = Raises (TypeError "'int' object is not callable") /\
  r <> Returns 1 /\
  calls_since marked_complete w' =
    [Call_write_directory_status "run_1" DIRECTORY_STATUS_PARTIAL] /\
  read_directory_status w' "run_1" = DIRECTORY_STATUS_COMPLETE.
Proof. vm_compute. repeat split. discriminate. Qed.

(** C10 on the code: [exit_error] is given a run directory and the write
    of the ERROR marker raises a DirectoryError.  The handler calls
    [logging.ERROR], an integer: TypeError leaves [exit_error], which
    returns nothing. *)
Theorem exit_error_write_failure_raises_TypeError :
  let '(r, w') := exit_error env_error_write_fails (Some "run_1") no_markers in
  r = Raises (TypeError "'int' object is not callable") /\
  r <> Returns 1 /\
  calls_since no_markers w' =
    [Call_write_directory_status "run_1" DIRECTORY_STATUS_ERROR].
Proof. vm_compute. repeat split. discriminate. Qed.

(** ** Statuses handed to the status store *)

Section PersistsOnly.

Context {A B : Type}.

Lemma persists_only_ret (a : A) : persists_only (mret a : M A).
Proof.
  intros w; split; [exists []; cbn; rewrite app_nil_r; by split | by left].
Qed.

Lemma persists_only_raise (e : exn) : persists_only (raise e : M A).
Proof.
  intros w; split; [exists []; cbn; rewrite app_nil_r; by split | by left].
Qed.

Lemma persists_only_call_outcome (c : Call) (r : result A) :
  written_status c = None -> persists_only (call_outcome c r).
Proof.
  intros Hc w; split; [|by left].
  exists [c]; cbn; split; [done|]. unfold written_statuses; cbn. by rewrite Hc.
Qed.

(** Running [k] from the world [m] ended in keeps the property. *)
Lemma persists_only_step (m : M A) (k : M B) (w : World) :
  persists_only m -> persists_only k ->
  (exists l, calls (k (m w).2).2 = calls w ++ l /\
             Forall (fun s => persistable s = true) (written_statuses l)) /\
  (forall d, markers (k (m w).2).2 !! d = markers w !! d \/
             exists s, markers (k (m w).2).2 !! d = Some s /\ persistable s = true).
Proof.
  intros Hm Hk.
  destruct (Hm w) as [(l1 & Hl1 & Hf1) Hm1].
  destruct (Hk (m w).2) as [(l2 & Hl2 & Hf2) Hm2].
  split.
  - exists (l1 ++ l2). split.
    + by rewrite Hl2, Hl1, app_assoc.
    + unfold written_statuses in *. rewrite omap_app. by apply Forall_app.
  - intros d. destruct (Hm2 d) as [Heq | Hs]; [|by right].
    rewrite Heq. apply Hm1.
Qed.

Lemma persists_only_bind (m : M A) (f : A -> M B) :
  persists_only m -> (forall a, persists_only (f a)) -> persists_only (m ≫= f).
Proof.
  intros Hm Hf w.
  unfold mbind, M_bind.
  destruct (m w) as [[a | e] w1] eqn:Hmw.
  - pose proof (persists_only_step m (f a) w Hm (Hf a)) as H.
    by rewrite Hmw in H.
  - pose proof (Hm w) as H. by rewrite Hmw in H.
Qed.

End PersistsOnly.

Lemma persists_only_try_except {A : Type} (body : M A) (handler : exn -> option (M A)) :
  persists_only body ->
  (forall e h, handler e = Some h -> persists_only h) ->
  persists_only (try_except body handler).
Proof.
  intros Hb Hh w.
  unfold try_except.
  destruct (body w) as [[a | e] w1] eqn:Hbw.
  - pose proof (Hb w) as H. by rewrite Hbw in H.
  - destruct (handler e) as [h|] eqn:He.
    + pose proof (persists_only_step body h w Hb (Hh e h He)) as H.
      by rewrite Hbw in H.
    + pose proof (Hb w) as H. by rewrite Hbw in H.
Qed.

Lemma persists_only_try_or_return {A R : Type} (body : M A) (handler : exn -> option (M R)) :
  persists_only body ->
  (forall e h, handler e = Some h -> persists_only h) ->
  persists_only (try_or_return body handler).
Proof.
  intros Hb Hh. unfold try_or_return.
  apply persists_only_try_except.
  - apply persists_only_bind; [done | intros; apply persists_only_ret].
  - intros e h. destruct (handler e) as [h'|] eqn:He; [|done].
    intros [= <-]. apply persists_only_bind; [eauto | intros; apply persists_only_ret].
Qed.

Lemma persists_only_continue_with {A R : Type} (m : M (R + A)) (k : A -> M R) :
  persists_only m -> (forall a, persists_only (k a)) -> persists_only (continue_with m k).
Proof.
  intros Hm Hk. unfold continue_with.
  apply persists_only_bind; [done|]. intros [r | a]; [apply persists_only_ret | apply Hk].
Qed.

Lemma persists_only_write (env : Env) (directory : string) (s : DirectoryStatus) :
  persistable s = true -> persists_only (write_directory_status env directory s).
Proof.
  intros Hs w. unfold write_directory_status.
  destruct (write_fails env directory s); cbn.
  - split; [|by left].
    exists [Call_write_directory_status directory s]. split; [done|].
    by repeat constructor.
  - split.
    + exists [Call_write_directory_status directory s]. split; [done|].
      by repeat constructor.
    + intros d. destruct (decide (directory = d)) as [<- | Hne].
      * right. exists s. by rewrite lookup_insert_eq.
      * left. by rewrite lookup_insert_ne.
Qed.

Ltac persists_step :=
  match goal with
  | |- persists_only (continue_with _ _) => apply persists_only_continue_with; [|intros]
  | |- persists_only (try_or_return _ _) =>
      apply persists_only_try_or_return;
      [| let e := fresh "e" in let h := fresh "h" in
         intros e h; destruct e; intros [= <-] ]
  | |- persists_only (try_except _ _) =>
      apply persists_only_try_except;
      [| let e := fresh "e" in let h := fresh "h" in
         intros e h; destruct e; intros [= <-] ]
  | |- persists_only (_ ≫= _) => apply persists_only_bind; [|intros]
  | |- persists_only (mret _) => apply persists_only_ret
  | |- persists_only (raise _) => apply persists_only_raise
  | |- persists_only (write_directory_status _ _ _) => apply persists_only_write; reflexivity
  | |- persists_only (call_outcome _ _) => apply persists_only_call_outcome; reflexivity
  | |- persists_only (if ?b then _ else _) => destruct b
  | |- persists_only (match ?x with _ => _ end) => destruct x
  end.

Ltac persists_unfold :=
  unfold logging_start_block, logging_end_block, exit_success, logging_ERROR,
    logging_debug, logging_info, logging_error, parse_and_validate,
    initialize_api_from_config, prepare_and_validate_for_upload,
    upload_sequencing_run, get_first_new_run.

Lemma exit_error_persists_only (env : Env) (run_directory : option string) :
  persists_only (exit_error env run_directory).
Proof. unfold exit_error. persists_unfold. repeat persists_step. Qed.

Lemma validate_and_upload_single_entry_persists_only (env : Env) (directory : string) :
  persists_only (validate_and_upload_single_entry env directory).
Proof.
  unfold validate_and_upload_single_entry. persists_unfold.
  repeat first [ apply exit_error_persists_only | persists_step ].
Qed.

Lemma upload_first_new_run_persists_only (env : Env) (directory : string) :
  persists_only (upload_first_new_run env directory).
Proof.
  unfold upload_first_new_run. persists_unfold.
  repeat first [ apply validate_and_upload_single_entry_persists_only | persists_step ].
Qed.

Lemma persistable_cases (s : DirectoryStatus) :
  persistable s = true ->
  s = DIRECTORY_STATUS_PARTIAL \/ s = DIRECTORY_STATUS_ERROR \/
  s = DIRECTORY_STATUS_COMPLETE.
Proof. destruct s; cbn; intros H; try discriminate H; auto. Qed.

Lemma persists_only_written {A : Type} (m : M A) (w : World) :
  persists_only m -> only_partial_error_complete_written w (m w).2.
Proof.
  intros Hm. destruct (Hm w) as [(l & Hl & Hf) Hmark]. split.
  - intros s Hs. rewrite (calls_since_app _ _ _ Hl) in Hs.
    rewrite Forall_forall in Hf. apply persistable_cases, Hf, Hs.
  - intros d. destruct (Hmark d) as [Heq | (s & Hs & Hp)]; [by left|].
    right. rewrite Hs. destruct (persistable_cases s Hp) as [-> | [-> | ->]]; auto.
Qed.

(** C9: whatever the collaborators do, every status that a run of
    [validate_and_upload_single_entry], of [upload_first_new_run] or of
    [exit_error] hands to [write_directory_status] is PARTIAL, ERROR or
    COMPLETE, and every marker is unchanged or holds one of these three:
    NEW and INVALID are never written. *)
Theorem orchestrator_writes_partial_error_complete_only (env : Env) (w : World) :
  (forall directory,
     only_partial_error_complete_written w
       (validate_and_upload_single_entry env directory w).2) /\
  (forall directory,
     only_partial_error_complete_written w (upload_first_new_run env directory w).2) /\
  (forall run_directory,
     only_partial_error_complete_written w (exit_error env run_directory w).2).
Proof.
  split; [|split].
  - intros directory. apply persists_only_written,
      validate_and_upload_single_entry_persists_only.
  - intros directory. apply persists_only_written, upload_first_new_run_persists_only.
  - intros run_directory. apply persists_only_written, exit_error_persists_only.
Qed.

(** ** The NextSeq parser *)

Ltac unfold_parser :=
  unfold Parser.get_sequencing_run, Parser.get_sample_sheet,
    Parser.get_full_data_directory, result_try_except, logging_debug,
    logging_info, logging_error, mbind, result_bind, mret, result_ret.



(** A directory that does not exist is refused with the DirectoryError of
    the access check; the failing listing is never reached. *)
Example get_sample_sheet_of_missing_directory :
  Parser.get_sample_sheet penv_missing_directory "/runs/gone" =
    Raises (parsers_DirectoryError
              "The directory is not accessible, can not parse samples from this directory {}"
              "/runs/gone").
Proof. reflexivity. Qed.

(** When an accessible directory cannot be listed, the exception of the
    listing leaves [get_sample_sheet] as it is. *)
Lemma get_sample_sheet_listing_failure
    (penv : ParserEnv) (directory : string) (e : exn) :
  os_access_W_OK penv directory = true ->
  common_get_file_list penv directory = Raises e ->
  Parser.get_sample_sheet penv directory = Raises e.
Proof. intros Hacc Hlist. unfold_parser. cbn. rewrite Hacc. cbn. by rewrite Hlist. Qed.

Example get_sample_sheet_of_complete_run :
  Parser.get_sample_sheet penv_complete_run "/runs/run_1" =
    Returns "/runs/run_1/SampleSheet.csv".
Proof. reflexivity. Qed.

(** X14: without a data directory the pipeline stops at the missing
    attribute [get_full_data_directory], before any stage has run, whatever
    the sheet and the file list are. *)
Lemma get_sequencing_run_without_data_directory
    (penv : ParserEnv) (sample_sheet : string) (file_list : option (list string)) :
  exists message,
    Parser.get_sequencing_run penv sample_sheet None file_list =
      Raises (AttributeError message).
Proof. eexists. reflexivity. Qed.

(** X15: a DirectoryError raised while the data directory is listed is
    the one error of the ValidationError that ends the pipeline. *)
Lemma get_sequencing_run_file_list_error
    (penv : ParserEnv) (sample_sheet d message d' : string) :
  common_get_file_list penv d = Raises (parsers_DirectoryError message d') ->
  Parser.get_sequencing_run penv sample_sheet (Some d) None =
    Raises (ValidationError "Errors occurred while parsing files"
              [parsers_DirectoryError message d']).
Proof. intros H. unfold_parser. cbn. by rewrite H. Qed.

(** C7, as stated, fails: the files of one sample are missing and the
    sample parser raises its SequenceFileError.  [get_sequencing_run]
    leaves the sample stage at once with a ValidationError that carries
    this single error; it returns no run, so the sample whose files are
    present is not returned either. *)
Lemma sample_file_error_aborts_the_run :
  Parser.get_sequencing_run penv_missing_fastq "SampleSheet.csv"
    (Some "Data/Intensities/BaseCalls") (Some fastq_of_second_sample) =
    Raises (ValidationError "Errors occurred while building sequence run from sample sheet"
              [SequenceFileError "No files found for sample 01-1111"]) /\
  ~ (exists run,
       Parser.get_sequencing_run penv_missing_fastq "SampleSheet.csv"
         (Some "Data/Intensities/BaseCalls") (Some fastq_of_second_sample) = Returns run).
Proof. split; [reflexivity | intros (run & H); discriminate H]. Qed.

Lemma get_sequencing_run_after_listing
    (penv : ParserEnv) (sample_sheet d : string) (l : list string) :
  surfaces_stage_errors penv sample_sheet d l
    (Parser.get_sequencing_run penv sample_sheet (Some d) (Some l)).
Proof.
  unfold surfaces_stage_errors. unfold_parser. cbn.
  destruct (validation_validate_sample_sheet penv sample_sheet) as [vr | e]; cbn; [|done].
  split.
  - intros Hinvalid. by rewrite Hinvalid.
  - intros Hvalid. rewrite Hvalid. cbn. split.
    + unfold is_valid in Hvalid. by destruct (error_list vr).
    + destruct (sample_parser_parse_metadata penv sample_sheet) as [md | e]; cbn.
      * destruct (sample_parser_parse_sample_list penv sample_sheet d l)
          as [sample_list | e]; cbn.
        -- destruct (common_build_sequencing_run_from_samples penv sample_list md)
             as [run | e]; cbn; [done | by destruct e].
        -- by destruct e.
      * by destruct e.
Qed.

(** C7, amended: for every way of calling [get_sequencing_run].  Without a
    data directory the lookup of [get_full_data_directory] raises
    AttributeError before any stage.  With one, the file list is the one
    supplied or the listing of the data directory; a DirectoryError of the
    listing is the one error of the ValidationError that ends the
    pipeline.  Then a failing stage stops the pipeline with one
    ValidationError: an invalid validator result is surfaced whole, with
    all its errors in order; a valid one holds no error when the next
    stage starts from a fresh result; the metadata stage surfaces exactly
    the SampleSheetError raised, and the sample stage exactly the
    SequenceFileError raised by the sample parser or by the run builder, so
    one sample's file error ends the stage and no run is returned.  An
    exception of a class the handler of its stage does not name is passed
    on, and without an exception the run is returned. *)
Theorem get_sequencing_run_surfaces_stage_errors
    (penv : ParserEnv) (sample_sheet : string)
    (run_data_directory : option string)
    (run_data_directory_file_list : option (list string)) :
  let outcome :=
    Parser.get_sequencing_run penv sample_sheet run_data_directory
      run_data_directory_file_list in
  match run_data_directory with
  | None =>
      outcome =
        Raises (AttributeError
                  "type object 'Parser' has no attribute 'get_full_data_directory'")
  | Some d =>
      match file_list_or_listing penv d run_data_directory_file_list with
      | Returns l => surfaces_stage_errors penv sample_sheet d l outcome
      | Raises (parsers_DirectoryError m d') =>
          outcome = Raises (ValidationError "Errors occurred while parsing files"
                              [parsers_DirectoryError m d'])
      | Raises e => outcome = Raises e
      end
  end.
Proof.
  intros outcome. subst outcome.
  destruct run_data_directory as [d|]; [|reflexivity].
  destruct run_data_directory_file_list as [l|]; cbn [file_list_or_listing].
  - apply get_sequencing_run_after_listing.
  - destruct (common_get_file_list penv d) as [l | e] eqn:Hlist.
    + pose proof (get_sequencing_run_after_listing penv sample_sheet d l) as H.
      revert H. unfold_parser. cbn. by rewrite Hlist.
    + unfold_parser. cbn. rewrite Hlist. by destruct e.
Qed.

Lemma get_sequencing_run_surfaces_stage_errors_witness :
  (is_valid new_ValidationResult = false ->
   Parser.get_sequencing_run penv_missing_fastq "SampleSheet.csv"
     (Some "Data/Intensities/BaseCalls") None =
     Raises (ValidationError "Errors occurred while getting sample sheet"
               (error_list new_ValidationResult))) /\
  (is_valid new_ValidationResult = true ->
   error_list new_ValidationResult = [] /\
   Parser.get_sequencing_run penv_missing_fastq "SampleSheet.csv"
     (Some "Data/Intensities/BaseCalls") None =
     Raises (ValidationError "Errors occurred while building sequence run from sample sheet"
               [SequenceFileError "No files found for sample 01-1111"])).
Proof.
  exact (get_sequencing_run_surfaces_stage_errors penv_missing_fastq "SampleSheet.csv"
           (Some "Data/Intensities/BaseCalls") None).
Defined.

(** ** Further properties of the orchestrator *)

(** X1: when the two marker writes and every stage succeed, the
    orchestrator returns 0, leaves the marker COMPLETE, and has called, in
    this order and once each: the PARTIAL write, parsing, connecting, online
    validation, the upload and the COMPLETE write. *)
Theorem successful_run_marks_complete
    (env : Env) (directory : string) (w : World)
    (run : SequencingRun) (vr : ValidationResult) :
  write_fails env directory DIRECTORY_STATUS_PARTIAL = false ->
  write_fails env directory DIRECTORY_STATUS_COMPLETE = false ->
  parse_and_validate_outcome env directory = Returns run ->
  initialize_api_outcome env = Returns () ->
  prepare_and_validate_outcome env run = Returns vr ->
  is_valid vr = true ->
  upload_outcome env run = Returns () ->
  let '(r, w') := validate_and_upload_single_entry env directory w in
  r = Returns 0 /\
  read_directory_status w' directory = DIRECTORY_STATUS_COMPLETE /\
  markers w' = <[directory := DIRECTORY_STATUS_COMPLETE]> (markers w) /\
  calls_since w w' =
    stage_calls directory run ++
    [Call_write_directory_status directory DIRECTORY_STATUS_COMPLETE].
Proof.
  intros Hw Hwc Hp Hc Hv Hvalid Hu.
  unfold_orchestrator. cbn.
  rewrite Hw; cbn. rewrite Hp; cbn. rewrite Hc; cbn. rewrite Hv; cbn.
  rewrite Hvalid; cbn. rewrite Hu; cbn. rewrite Hwc; cbn.
  settle_calls. unfold read_directory_status; cbn.
  rewrite lookup_insert_eq, insert_insert_eq. done.
Qed.

Lemma successful_run_marks_complete_witness :
  let '(r, w') := validate_and_upload_single_entry env_all_succeed "run_1" no_markers in
  r = Returns 0 /\
  read_directory_status w' "run_1" = DIRECTORY_STATUS_COMPLETE /\
  markers w' = <[ "run_1" := DIRECTORY_STATUS_COMPLETE]> (markers no_markers) /\
  calls_since no_markers w' =
    stage_calls "run_1" a_run ++
    [Call_write_directory_status "run_1" DIRECTORY_STATUS_COMPLETE].
Proof.
  apply (successful_run_marks_complete env_all_succeed "run_1" no_markers
           a_run new_ValidationResult); reflexivity.
Defined.

(** X2: the orchestrator returns 0 exactly when every stage and both
    marker writes succeed; and whenever it returns 0 the upload was invoked
    and the marker of the directory is COMPLETE. *)
Theorem exit_code_zero_iff_all_stages_succeed
    (env : Env) (directory : string) (w : World) :
  let '(r, w') := validate_and_upload_single_entry env directory w in
  (r = Returns 0 <-> all_stages_succeed env directory) /\
  (r = Returns 0 ->
   upload_invoked (calls_since w w') = true /\
   read_directory_status w' directory = DIRECTORY_STATUS_COMPLETE).
Proof.
  unfold_orchestrator.
  explore_outcomes; settle_calls; unfold all_stages_succeed, read_directory_status; cbn;
    repeat match goal with u : unit |- _ => destruct u end;
    (split;
     [ split;
       [ first [ discriminate | intros _; split; [done | split; [done | eauto 10]] ]
       | first [ done
               | intros (? & ? & ? & ? & ? & ? & ? & ? & ?); congruence ] ]
     | first [ discriminate | intros _; by rewrite lookup_insert_eq ] ]).
Qed.

(** X3: when parsing raises a DirectoryError or a ValidationError, the
    orchestrator (on a directory with a non-empty path whose markers can be
    written) returns 1 with the marker ERROR, and makes no call after the
    parse but the ERROR write: the remote service is not contacted. *)
Theorem offline_failure_marks_error
    (env : Env) (directory : string) (w : World) (e : exn) :
  directory <> "" ->
  write_fails env directory DIRECTORY_STATUS_PARTIAL = false ->
  write_fails env directory DIRECTORY_STATUS_ERROR = false ->
  parse_and_validate_outcome env directory = Raises e ->
  (exists m d, e = parsers_DirectoryError m d) \/
  (exists m errors, e = ValidationError m errors) ->
  let '(r, w') := validate_and_upload_single_entry env directory w in
  r = Returns 1 /\
  read_directory_status w' directory = DIRECTORY_STATUS_ERROR /\
  calls_since w w' =
    [Call_write_directory_status directory DIRECTORY_STATUS_PARTIAL;
     Call_parse_and_validate directory;
     Call_write_directory_status directory DIRECTORY_STATUS_ERROR].
Proof.
  intros Hdir Hw He Hp Hclass.
  apply String.eqb_neq in Hdir.
  unfold_orchestrator. cbn.
  rewrite Hw; cbn. rewrite Hp; cbn.
  destruct Hclass as [(m & d & ->) | (m & errors & ->)]; cbn;
    rewrite Hdir; cbn; rewrite He; cbn;
    settle_calls; unfold read_directory_status; cbn;
    by rewrite lookup_insert_eq.
Qed.

Lemma offline_failure_marks_error_witness :
  let '(r, w') := validate_and_upload_single_entry env_invalid_sheet "run_1" no_markers in
  r = Returns 1 /\
  read_directory_status w' "run_1" = DIRECTORY_STATUS_ERROR /\
  calls_since no_markers w' =
    [Call_write_directory_status "run_1" DIRECTORY_STATUS_PARTIAL;
     Call_parse_and_validate "run_1";
     Call_write_directory_status "run_1" DIRECTORY_STATUS_ERROR].
Proof.
  apply (offline_failure_marks_error env_invalid_sheet "run_1" no_markers
           (ValidationError "Errors occurred while getting sample sheet"
              [SampleSheetError "[Header] section not found" "SampleSheet.csv"]));
    [discriminate | reflexivity | reflexivity | reflexivity | right; eauto].
Defined.

(** X4: when online validation returns a result that is not valid, the
    orchestrator (on a directory with a non-empty path whose markers can be
    written) returns 1 with the marker ERROR and does not invoke the
    upload. *)
Theorem online_rejection_marks_error
    (env : Env) (directory : string) (w : World)
    (run : SequencingRun) (vr : ValidationResult) :
  directory <> "" ->
  write_fails env directory DIRECTORY_STATUS_PARTIAL = false ->
  write_fails env directory DIRECTORY_STATUS_ERROR = false ->
  parse_and_validate_outcome env directory = Returns run ->
  initialize_api_outcome env = Returns () ->
  prepare_and_validate_outcome env run = Returns vr ->
  is_valid vr = false ->
  let '(r, w') := validate_and_upload_single_entry env directory w in
  r = Returns 1 /\
  read_directory_status w' directory = DIRECTORY_STATUS_ERROR /\
  upload_invoked (calls_since w w') = false /\
  written_statuses (calls_since w w') =
    [DIRECTORY_STATUS_PARTIAL; DIRECTORY_STATUS_ERROR].
Proof.
  intros Hdir Hw He Hp Hc Hv Hinvalid.
  apply String.eqb_neq in Hdir.
  unfold_orchestrator. cbn.
  rewrite Hw; cbn. rewrite Hp; cbn. rewrite Hc; cbn. rewrite Hv; cbn.
  rewrite Hinvalid; cbn. rewrite Hdir; cbn. rewrite He; cbn.
  settle_calls. unfold read_directory_status; cbn.
  by rewrite lookup_insert_eq.
Qed.

Lemma online_rejection_marks_error_witness :
  let '(r, w') := validate_and_upload_single_entry env_online_rejects "run_1" no_markers in
  r = Returns 1 /\
  read_directory_status w' "run_1" = DIRECTORY_STATUS_ERROR /\
  upload_invoked (calls_since no_markers w') = false /\
  written_statuses (calls_since no_markers w') =
    [DIRECTORY_STATUS_PARTIAL; DIRECTORY_STATUS_ERROR].
Proof.
  apply (online_rejection_marks_error env_online_rejects "run_1" no_markers a_run
           (mkValidationResult [OtherException "project 6 does not exist"]));
    [discriminate | reflexivity .. ].
Defined.

(** X5: an exception of a class that no handler names (anything but the
    parsers' DirectoryError and ValidationError from parsing, anything but
    a connection error from the remote service) leaves the orchestrator
    unchanged as an exception; no ERROR marker is written and the
    directory stays PARTIAL. *)
Theorem unhandled_exception_propagates
    (env : Env) (directory : string) (w : World) (e : exn) :
  write_fails env directory DIRECTORY_STATUS_PARTIAL = false ->
  stage_raises_unhandled env directory e ->
  let '(r, w') := validate_and_upload_single_entry env directory w in
  r = Raises e /\
  read_directory_status w' directory = DIRECTORY_STATUS_PARTIAL /\
  written_statuses (calls_since w w') = [DIRECTORY_STATUS_PARTIAL].
Proof.
  intros Hw Hstage.
  unfold_orchestrator. cbn. rewrite Hw; cbn.
  destruct Hstage as [[Hp Hn] | (run & Hp & Hn & Hstage)]; rewrite Hp; cbn.
  - destruct e; cbn in Hn; try (by destruct Hn); cbn;
      settle_calls; unfold read_directory_status; cbn; by rewrite lookup_insert_eq.
  - destruct Hstage as [Hc | [Hc [Hv | (vr & Hv & Hvalid & Hu)]]]; rewrite Hc; cbn;
      [ | rewrite Hv; cbn | rewrite Hv; cbn; rewrite Hvalid; cbn; rewrite Hu; cbn ];
      (destruct e; cbn in Hn; try (by destruct Hn); cbn;
       settle_calls; unfold read_directory_status; cbn; by rewrite lookup_insert_eq).
Qed.

Lemma unhandled_exception_propagates_witness :
  let '(r, w') := validate_and_upload_single_entry env_parse_crashes "run_1" no_markers in
  r = Raises (OtherException "KeyError") /\
  read_directory_status w' "run_1" = DIRECTORY_STATUS_PARTIAL /\
  written_statuses (calls_since no_markers w') = [DIRECTORY_STATUS_PARTIAL].
Proof.
  apply (unhandled_exception_propagates env_parse_crashes "run_1" no_markers
           (OtherException "KeyError")); [reflexivity|].
  left. split; [reflexivity | intros H; exact H].
Defined.

(** X6: whatever the collaborators do, a run of the orchestrator on one
    directory leaves the marker of every other directory as it was. *)
Theorem other_directories_keep_their_marker
    (env : Env) (directory d : string) (w : World) :
  d <> directory ->
  markers (validate_and_upload_single_entry env directory w).2 !! d = markers w !! d.
Proof.
  intros Hne. unfold_orchestrator.
  explore_outcomes; rewrite ?lookup_insert_ne by done; reflexivity.
Qed.

Lemma other_directories_keep_their_marker_witness :
  markers (validate_and_upload_single_entry env_all_succeed "run_2" marked_complete).2
    !! "run_1" = markers marked_complete !! "run_1".
Proof.
  apply (other_directories_keep_their_marker env_all_succeed "run_2" "run_1" marked_complete).
  discriminate.
Defined.

(** [exit_error] without a directory, or with the empty path,
    returns 1 and touches nothing: no marker is written and no collaborator
    is called. *)
Theorem exit_error_without_directory
    (env : Env) (run_directory : option string) (w : World) :
  run_directory = None \/ run_directory = Some "" ->
  exit_error env run_directory w = (Returns 1, w).
Proof. intros [-> | ->]; reflexivity. Qed.

Lemma exit_error_without_directory_witness :
  exit_error env_error_write_fails (Some "") marked_complete = (Returns 1, marked_complete).
Proof.
  apply (exit_error_without_directory env_error_write_fails (Some "") marked_complete).
  right. reflexivity.
Defined.

(** X7: [exit_error] with a non-empty directory whose marker can be
    written returns 1, sets the marker of that directory to ERROR whatever
    it was, and makes this write its only call. *)
Theorem exit_error_marks_directory
    (env : Env) (directory : string) (w : World) :
  directory <> "" ->
  write_fails env directory DIRECTORY_STATUS_ERROR = false ->
  let '(r, w') := exit_error env (Some directory) w in
  r = Returns 1 /\
  markers w' = <[directory := DIRECTORY_STATUS_ERROR]> (markers w) /\
  calls_since w w' = [Call_write_directory_status directory DIRECTORY_STATUS_ERROR].
Proof.
  intros Hdir He. apply String.eqb_neq in Hdir.
  unfold_orchestrator. cbn. rewrite Hdir; cbn. rewrite He; cbn.
  settle_calls. done.
Qed.

Lemma exit_error_marks_directory_witness :
  let '(r, w') := exit_error env_all_succeed (Some "run_1") marked_complete in
  r = Returns 1 /\
  markers w' = <[ "run_1" := DIRECTORY_STATUS_ERROR]> (markers marked_complete) /\
  calls_since marked_complete w' =
    [Call_write_directory_status "run_1" DIRECTORY_STATUS_ERROR].
Proof.
  apply (exit_error_marks_directory env_all_succeed "run_1" marked_complete);
    [discriminate | reflexivity].
Defined.

(** X8: when no new run is found, [upload_first_new_run] returns 0 having
    only searched: no marker is changed, no status is written and nothing
    is parsed or uploaded. *)
Theorem no_new_run_changes_nothing
    (env : Env) (directory : string) (w : World) :
  get_first_new_run_outcome env directory = Returns None ->
  let '(r, w') := upload_first_new_run env directory w in
  r = Returns 0 /\
  markers w' = markers w /\
  calls_since w w' = [Call_get_first_new_run directory].
Proof.
  intros Hnone. unfold_orchestrator. cbn. rewrite Hnone; cbn.
  settle_calls. done.
Qed.

Lemma no_new_run_changes_nothing_witness :
  let '(r, w') := upload_first_new_run env_all_succeed "/runs" marked_complete in
  r = Returns 0 /\
  markers w' = markers marked_complete /\
  calls_since marked_complete w' = [Call_get_first_new_run "/runs"].
Proof.
  apply (no_new_run_changes_nothing env_all_succeed "/runs" marked_complete).
  reflexivity.
Defined.

(** X9: when the search finds a run, [upload_first_new_run] does exactly
    what the orchestrator does on the run found, not on the directory
    searched: same result, same markers, the same calls after the search. *)
Theorem new_run_is_handed_to_the_orchestrator
    (env : Env) (directory first_run : string) (w : World) :
  get_first_new_run_outcome env directory = Returns (Some first_run) ->
  upload_first_new_run env directory w =
    validate_and_upload_single_entry env first_run
      (record_call (Call_get_first_new_run directory) w).
Proof.
  intros Hfound. unfold upload_first_new_run.
  unfold try_except, get_first_new_run, call_outcome, logging_debug, logging_info,
    mbind, M_bind, mret, M_ret.
  cbn. rewrite Hfound. reflexivity.
Qed.

Lemma new_run_is_handed_to_the_orchestrator_witness :
  upload_first_new_run env_new_run_found "/runs" no_markers =
    validate_and_upload_single_entry env_new_run_found "/runs/run_1"
      (record_call (Call_get_first_new_run "/runs") no_markers).
Proof.
  apply (new_run_is_handed_to_the_orchestrator env_new_run_found "/runs" "/runs/run_1"
           no_markers).
  reflexivity.
Defined.

Ltac stage_shape run n closing :=
  exists run, n, closing; cbn;
  split; [reflexivity | split; [lia | split; [auto | first [lia | done]]]].

(** X10: the stages run in the order of the source and none is skipped:
    the calls of a run are the first [n] of PARTIAL write, parse, connect,
    validate online, upload (at least the PARTIAL write, and the last two
    on the run that parsing returned), followed by at most one closing
    write of ERROR or COMPLETE. *)
Theorem calls_follow_the_stages (env : Env) (directory : string) (w : World) :
  exists run n closing,
    calls_since w (validate_and_upload_single_entry env directory w).2 =
      take n (stage_calls directory run) ++ closing /\
    (1 <= n)%nat /\
    closing_write directory closing /\
    ((3 < n)%nat -> parse_and_validate_outcome env directory = Returns run).
Proof.
  unfold_orchestrator.
  explore_outcomes; settle_calls; unfold closing_write;
    first
      [ stage_shape empty_run 1%nat (@nil Call)
      | stage_shape empty_run 2%nat (@nil Call)
      | stage_shape empty_run 2%nat
          [Call_write_directory_status directory DIRECTORY_STATUS_ERROR]
      | stage_shape empty_run 3%nat (@nil Call)
      | stage_shape empty_run 3%nat
          [Call_write_directory_status directory DIRECTORY_STATUS_ERROR]
      | match goal with
        | run : SequencingRun |- _ =>
            first
              [ stage_shape run 4%nat (@nil Call)
              | stage_shape run 4%nat
                  [Call_write_directory_status directory DIRECTORY_STATUS_ERROR]
              | stage_shape run 5%nat (@nil Call)
              | stage_shape run 5%nat
                  [Call_write_directory_status directory DIRECTORY_STATUS_COMPLETE] ]
        end ].
Qed.

(** X11: on the empty path a handled failure returns 1 like any other, but
    [exit_error] takes the empty string for no directory: no ERROR marker is
    written and the marker written at the start stays PARTIAL. *)
Theorem empty_path_failure_keeps_partial (env : Env) (w : World) (e : exn) :
  write_fails env "" DIRECTORY_STATUS_PARTIAL = false ->
  parse_and_validate_outcome env "" = Raises e ->
  parse_domain_outcome (Raises e) ->
  let '(r, w') := validate_and_upload_single_entry env "" w in
  r = Returns 1 /\
  read_directory_status w' "" = DIRECTORY_STATUS_PARTIAL /\
  written_statuses (calls_since w w') = [DIRECTORY_STATUS_PARTIAL].
Proof.
  intros Hw Hp Hdomain.
  unfold_orchestrator. cbn. rewrite Hw; cbn. rewrite Hp; cbn.
  destruct e; cbn in Hdomain; try contradiction; cbn;
    settle_calls; unfold read_directory_status; cbn; by rewrite lookup_insert_eq.
Qed.

Lemma empty_path_failure_keeps_partial_witness :
  let '(r, w') := validate_and_upload_single_entry env_invalid_sheet "" no_markers in
  r = Returns 1 /\
  read_directory_status w' "" = DIRECTORY_STATUS_PARTIAL /\
  written_statuses (calls_since no_markers w') = [DIRECTORY_STATUS_PARTIAL].
Proof.
  apply (empty_path_failure_keeps_partial env_invalid_sheet no_markers
           (ValidationError "Errors occurred while getting sample sheet"
              [SampleSheetError "[Header] section not found" "SampleSheet.csv"]));
    [reflexivity | reflexivity | exact I].
Defined.

(** ** Further properties of the NextSeq parser *)

(** X12: given the data directory and its file list, [get_sequencing_run]
    returns a run exactly when the sheet validates without error, the
    metadata and the samples parse and the run is built from them; the run
    returned is the one the builder made. *)
Theorem get_sequencing_run_returns_iff
    (penv : ParserEnv) (sample_sheet d : string) (l : list string)
    (run : SequencingRun) :
  Parser.get_sequencing_run penv sample_sheet (Some d) (Some l) = Returns run
  <->
  exists vr md sample_list,
    validation_validate_sample_sheet penv sample_sheet = Returns vr /\
    is_valid vr = true /\
    sample_parser_parse_metadata penv sample_sheet = Returns md /\
    sample_parser_parse_sample_list penv sample_sheet d l = Returns sample_list /\
    common_build_sequencing_run_from_samples penv sample_list md = Returns run.
Proof.
  unfold_parser. cbn. split.
  - destruct (validation_validate_sample_sheet penv sample_sheet) as [vr | e]; cbn;
      [|discriminate].
    destruct (is_valid vr) eqn:Hvalid; cbn; [|discriminate].
    destruct (sample_parser_parse_metadata penv sample_sheet) as [md | e]; cbn;
      [|destruct e; discriminate].
    destruct (sample_parser_parse_sample_list penv sample_sheet d l)
      as [sample_list | e] eqn:Hsl; cbn; [|destruct e; discriminate].
    destruct (common_build_sequencing_run_from_samples penv sample_list md)
      as [run' | e] eqn:Hb; cbn; [|destruct e; discriminate].
    intros [= <-]. exists vr, md, sample_list. done.
  - intros (vr & md & sample_list & -> & Hvalid & -> & Hsl & Hb). cbn.
    rewrite Hvalid. cbn. rewrite Hsl. cbn. by rewrite Hb.
Qed.

(** X13: as long as the helpers raise no ValidationError of their own, a
    ValidationError raised by [get_sequencing_run] carries at least one
    error: its validation result is never a valid one. *)
Theorem ValidationError_carries_an_error
    (penv : ParserEnv) (sample_sheet : string)
    (run_data_directory : option string)
    (run_data_directory_file_list : option (list string))
    (message : string) (errors : list exn) :
  (forall d, ~ raises_ValidationError (common_get_file_list penv d)) ->
  ~ raises_ValidationError (validation_validate_sample_sheet penv sample_sheet) ->
  ~ raises_ValidationError (sample_parser_parse_metadata penv sample_sheet) ->
  (forall d l, ~ raises_ValidationError
                 (sample_parser_parse_sample_list penv sample_sheet d l)) ->
  (forall sample_list md,
     ~ raises_ValidationError
         (common_build_sequencing_run_from_samples penv sample_list md)) ->
  Parser.get_sequencing_run penv sample_sheet run_data_directory
    run_data_directory_file_list = Raises (ValidationError message errors) ->
  errors <> [] /\ is_valid (mkValidationResult errors) = false.
Proof.
  intros Hfl Hv Hmd Hsl Hb.
  assert (Hne : errors <> [] -> errors <> [] /\ is_valid (mkValidationResult errors) = false).
  { intros H. split; [done|]. unfold is_valid; cbn. by destruct errors. }
  unfold_parser. cbn.
  destruct run_data_directory as [d|]; cbn; [|discriminate].
  assert (Hstages :
    forall l,
      (vr ← validation_validate_sample_sheet penv sample_sheet;
       (if negb (is_valid vr)
        then Raises (ValidationError "Errors occurred while getting sample sheet"
                       (error_list vr))
        else Returns ());;
       md ← result_try_except (sample_parser_parse_metadata penv sample_sheet)
              (fun error =>
                 match error with
                 | SampleSheetError _ _ =>
                     Some (Raises (ValidationError "Errors occurred while parsing metadata"
                                     [error]))
                 | _ => None
                 end);
       run ← result_try_except
               (sample_list ← sample_parser_parse_sample_list penv sample_sheet d l;
                common_build_sequencing_run_from_samples penv sample_list md)
               (fun error =>
                  match error with
                  | SequenceFileError _ =>
                      Some (Raises (ValidationError
                                      "Errors occurred while building sequence run from sample sheet"
                                      [error]))
                  | _ => None
                  end);
       Returns run) = Raises (ValidationError message errors) ->
      errors <> []).
  { intros l. unfold_parser. cbn.
    destruct (validation_validate_sample_sheet penv sample_sheet) as [vr | e] eqn:Evr; cbn.
    - destruct (is_valid vr) eqn:Hvalid; cbn.
      + destruct (sample_parser_parse_metadata penv sample_sheet) as [md | e] eqn:Emd; cbn.
        * pose proof (Hsl d l) as Hsl'.
          destruct (sample_parser_parse_sample_list penv sample_sheet d l)
            as [sample_list | e]; cbn.
          -- pose proof (Hb sample_list md) as Hb'.
             destruct (common_build_sequencing_run_from_samples penv sample_list md)
               as [run | e]; cbn; [discriminate|].
             destruct e; cbn in *; intros [= <- <-] || intros [=]; done.
          -- destruct e; cbn in *; intros [= <- <-] || intros [=]; done.
        * destruct e; cbn in *; intros [= <- <-] || intros [=]; done.
      + intros [= <- <-]. unfold is_valid in Hvalid. by destruct (error_list vr).
    - destruct e; cbn in *; intros [= <- <-] || intros [=]; done. }
  destruct run_data_directory_file_list as [l|]; cbn.
  - intros H. apply Hne, (Hstages l). exact H.
  - pose proof (Hfl d) as Hfl'.
    destruct (common_get_file_list penv d) as [l | e]; cbn.
    + intros H. apply Hne, (Hstages l). exact H.
    + destruct e; cbn in *; intros [= <- <-] || intros [=]; by apply Hne.
Qed.

Lemma ValidationError_carries_an_error_witness :
  [SequenceFileError "No files found for sample 01-1111"] <> [] /\
  is_valid (mkValidationResult [SequenceFileError "No files found for sample 01-1111"]) = false.
Proof.
  apply (ValidationError_carries_an_error penv_missing_fastq "SampleSheet.csv"
           (Some "Data/Intensities/BaseCalls") (Some fastq_of_second_sample)
           "Errors occurred while building sequence run from sample sheet"
           [SequenceFileError "No files found for sample 01-1111"]);
    try (intros; intros H; exact H); try (intros H; exact H).
  reflexivity.
Defined.

Lemma get_sequencing_run_file_list_error_witness :
  Parser.get_sequencing_run penv_no_data_directory "SampleSheet.csv"
    (Some "/runs/run_1/Data/Intensities/BaseCalls") None =
    Raises (ValidationError "Errors occurred while parsing files"
              [parsers_DirectoryError "Could not list files, as directory does not exist."
                 "/runs/run_1/Data/Intensities/BaseCalls"]).
Proof.
  apply (get_sequencing_run_file_list_error penv_no_data_directory "SampleSheet.csv"
           "/runs/run_1/Data/Intensities/BaseCalls"
           "Could not list files, as directory does not exist."
           "/runs/run_1/Data/Intensities/BaseCalls").
  reflexivity.
Defined.

(** X16: when the data directory and its file list are supplied, the
    operating system is not consulted: the outcome is the same whatever
    [os.access] and [common.get_file_list] would answer. *)
Theorem supplied_file_list_bypasses_the_os
    (penv : ParserEnv) (access : string -> bool)
    (listing : string -> result (list string))
    (sample_sheet d : string) (l : list string) :
  Parser.get_sequencing_run
    (mkParserEnv access listing
       (validation_validate_sample_sheet penv) (sample_parser_parse_metadata penv)
       (sample_parser_parse_sample_list penv)
       (common_build_sequencing_run_from_samples penv))
    sample_sheet (Some d) (Some l) =
  Parser.get_sequencing_run penv sample_sheet (Some d) (Some l).
Proof. destruct penv. reflexivity. Qed.

(** ** Paths *)

Lemma up_to_last_slash_no_slash (s : string) :
  contains_slash s = false -> up_to_last_slash s = "".
Proof. destruct s as [|c s]; [done|]. intros H. cbn [up_to_last_slash]. by rewrite H. Qed.

Lemma contains_slash_app_slash (d s : string) :
  contains_slash (d +:+ String "/"%char s) = true.
Proof.
  induction d as [|c d IH]; [done|].
  change (String c d +:+ String "/"%char s) with (String c (d +:+ String "/"%char s)).
  cbn [contains_slash]. rewrite IH. apply orb_true_r.
Qed.

Lemma up_to_last_slash_app (d name : string) :
  contains_slash name = false ->
  up_to_last_slash (d +:+ String "/"%char name) = d +:+ "/".
Proof.
  intros Hname. induction d as [|c d IH].
  - change ("" +:+ String "/"%char name) with (String "/"%char name).
    cbn [up_to_last_slash contains_slash].
    rewrite Ascii.eqb_refl, (up_to_last_slash_no_slash _ Hname). reflexivity.
  - change (String c d +:+ String "/"%char name)
      with (String c (d +:+ String "/"%char name)).
    cbn [up_to_last_slash contains_slash].
    rewrite contains_slash_app_slash, orb_true_r, IH. reflexivity.
Qed.

Lemma all_slashes_app_false (d s : string) :
  d <> "" -> ends_with_slash d = false -> all_slashes (d +:+ s) = false.
Proof.
  induction d as [|c d IH]; [done|]. intros _ Hend.
  destruct d as [|c' d'].
  - change (String c "" +:+ s) with (String c s).
    cbn [ends_with_slash] in Hend. cbn [all_slashes]. by rewrite Hend.
  - change (String c (String c' d') +:+ s) with (String c (String c' d' +:+ s)).
    cbn [all_slashes]. rewrite IH; [apply andb_false_r | done | exact Hend].
Qed.

Lemma rstrip_slashes_app_slash (d : string) :
  d <> "" -> ends_with_slash d = false -> rstrip_slashes (d +:+ "/") = d.
Proof.
  induction d as [|c d IH]; [done|]. intros _ Hend.
  change (String c d +:+ "/") with (String c (d +:+ "/")).
  cbn [rstrip_slashes].
  change (String c (d +:+ "/")) with (String c d +:+ "/").
  rewrite (all_slashes_app_false (String c d) "/") by done.
  destruct d as [|c' d'].
  - reflexivity.
  - f_equal. apply IH; [done | exact Hend].
Qed.

(** [os.path.dirname] undoes [os.path.join] with a file name, for a
    directory written without a trailing slash. *)
Lemma dirname_join_file (d name : string) :
  ends_with_slash d = false ->
  contains_slash name = false ->
  os_path_dirname (os_path_join d name) = d.
Proof.
  intros Hend Hname. unfold os_path_join.
  assert (Hstart : starts_with_slash name = false).
  { destruct name as [|c name]; [done|]. cbn in *. by apply orb_false_iff in Hname as [-> _]. }
  rewrite Hstart, Hend, orb_false_r.
  destruct (String.eqb d "") eqn:Hd.
  - apply String.eqb_eq in Hd as ->.
    change ("" +:+ name) with name. unfold os_path_dirname.
    by rewrite (up_to_last_slash_no_slash _ Hname).
  - apply String.eqb_neq in Hd.
    unfold os_path_dirname.
    change (d +:+ "/" +:+ name) with (d +:+ String "/"%char name).
    rewrite (up_to_last_slash_app d name Hname).
    rewrite (all_slashes_app_false d "/" Hd Hend).
    assert (Hne : String.eqb (d +:+ "/") "" = false).
    { apply String.eqb_neq. by destruct d. }
    rewrite Hne. cbn. by apply rstrip_slashes_app_slash.
Qed.

(** X17: the sheet path that [get_sample_sheet] returns leads back to the
    run directory: for a directory given without a trailing slash, its
    [os.path.dirname] is the directory. *)
Theorem sample_sheet_path_leads_back
    (penv : ParserEnv) (directory path : string) :
  ends_with_slash directory = false ->
  Parser.get_sample_sheet penv directory = Returns path ->
  os_path_dirname path = directory.
Proof.
  intros Hend. unfold_parser. cbn.
  destruct (os_access_W_OK penv directory); cbn; [|discriminate].
  destruct (common_get_file_list penv directory) as [file_list | e]; cbn; [|discriminate].
  destruct (bool_decide _); cbn; [|discriminate].
  intros [= <-].
  exact (dirname_join_file directory Parser.SAMPLE_SHEET_FILE_NAME Hend eq_refl).
Qed.

Lemma sample_sheet_path_leads_back_witness :
  os_path_dirname "/runs/run_1/SampleSheet.csv" = "/runs/run_1".
Proof.
  apply (sample_sheet_path_leads_back penv_complete_run "/runs/run_1"
           "/runs/run_1/SampleSheet.csv"); reflexivity.
Defined.

(** ** The data directory structure *)

Lemma get_nextseq_data_struct_loop_returns
    (senv : ScannerEnv) (dd : string) (project_dir_list : list string)
    (st st' : NextSeqDataStruct) :
  Parser.get_nextseq_data_struct_loop senv dd project_dir_list st = Returns st'
  <->
  exists entries,
    st' = mkNextSeqDataStruct (projects st ++ entries) (data_dir st) /\
    Forall2 (entry_of_project senv dd) project_dir_list entries.
Proof.
  revert st. induction project_dir_list as [|p rest IH]; intros st; cbn.
  - split.
    + intros [= <-]. exists []. rewrite app_nil_r. split; [by destruct st | constructor].
    + intros (entries & -> & Hall). inversion Hall. rewrite app_nil_r. by destruct st.
  - unfold next_os_walk, mbind, result_bind.
    destruct (os_walk_top senv (os_path_join dd p)) as [[ds fs]|] eqn:Hwalk.
    + rewrite IH. cbn. split.
      * intros (entries & -> & Hall).
        exists (mkNextSeqDataEntry p fs :: entries). split.
        -- by rewrite <- app_assoc.
        -- constructor; [|done]. split; [done|]. by exists ds.
      * intros (entries & -> & Hall).
        inversion Hall as [|? entry ? entries' [Hname (ds' & Hfiles)] Hrest]; subst.
        exists entries'. split; [|done].
        rewrite <- app_assoc. cbn. destruct entry as [pn fl]. cbn in *.
        rewrite Hwalk in Hfiles. by simplify_eq.
    + split; [discriminate|].
      intros (entries & _ & Hall).
      inversion Hall as [|? entry ? ? [_ (ds' & Hfiles)] _]; subst.
      rewrite Hwalk in Hfiles. discriminate.
Qed.

(** X18: [get_nextseq_data_struct] returns a structure exactly when the
    data directory next to the sample sheet and each project directory in
    it can be listed; the structure names that data directory and has one
    entry per project directory, in the order of the listing, with the
    files of that directory. *)
Theorem get_nextseq_data_struct_returns_iff
    (senv : ScannerEnv) (sample_sheet : string) (st : NextSeqDataStruct) :
  let dd := os_path_join (os_path_dirname sample_sheet) "Data/Intensities/BaseCalls" in
  Parser.get_nextseq_data_struct senv sample_sheet = Returns st
  <->
  exists project_dir_list file_list,
    os_walk_top senv dd = Some (project_dir_list, file_list) /\
    data_dir st = dd /\
    Forall2 (entry_of_project senv dd) project_dir_list (projects st).
Proof.
  intros dd. unfold Parser.get_nextseq_data_struct.
  change (os_path_join (os_path_dirname sample_sheet) Parser.get_relative_data_directory)
    with dd.
  unfold next_os_walk, mbind, result_bind. cbn zeta.
  destruct (os_walk_top senv dd) as [[dirs fs]|] eqn:Hwalk.
  - rewrite get_nextseq_data_struct_loop_returns. cbn. split.
    + intros (entries & -> & Hall). exists dirs, fs. done.
    + intros (dirs' & fs' & [= <- <-] & Hdd & Hall).
      exists (projects st). split; [|done]. destruct st; cbn in *. by subst.
  - split; [discriminate|]. intros (? & ? & [=] & _).
Qed.

Lemma get_nextseq_data_struct_loop_raises
    (senv : ScannerEnv) (dd : string) (project_dir_list : list string)
    (st : NextSeqDataStruct) (e : exn) :
  Parser.get_nextseq_data_struct_loop senv dd project_dir_list st = Raises e ->
  e = OtherException "StopIteration" /\
  exists p, p ∈ project_dir_list /\ os_walk_top senv (os_path_join dd p) = None.
Proof.
  revert st. induction project_dir_list as [|p rest IH]; intros st; cbn; [discriminate|].
  unfold next_os_walk, mbind, result_bind.
  destruct (os_walk_top senv (os_path_join dd p)) as [[ds fs]|] eqn:Hwalk.
  - intros H. destruct (IH _ H) as [-> (p' & Hin & Hnone)].
    split; [done|]. exists p'. split; [by apply list_elem_of_further | done].
  - intros [= <-]. split; [done|]. exists p. split; [apply list_elem_of_here | done].
Qed.

(** X19: the only exception [get_nextseq_data_struct] raises is
    StopIteration, and it does so because the data directory or one of the
    project directories listed in it cannot be listed; no DirectoryError
    is made of it. *)
Theorem get_nextseq_data_struct_raises_StopIteration
    (senv : ScannerEnv) (sample_sheet : string) (e : exn) :
  let dd := os_path_join (os_path_dirname sample_sheet) "Data/Intensities/BaseCalls" in
  Parser.get_nextseq_data_struct senv sample_sheet = Raises e ->
  e = OtherException "StopIteration" /\
  (os_walk_top senv dd = None \/
   exists project_dir_list file_list p,
     os_walk_top senv dd = Some (project_dir_list, file_list) /\
     p ∈ project_dir_list /\
     os_walk_top senv (os_path_join dd p) = None).
Proof.
  intros dd. unfold Parser.get_nextseq_data_struct.
  change (os_path_join (os_path_dirname sample_sheet) Parser.get_relative_data_directory)
    with dd.
  unfold next_os_walk, mbind, result_bind. cbn zeta.
  destruct (os_walk_top senv dd) as [[dirs fs]|] eqn:Hwalk.
  - intros H. apply get_nextseq_data_struct_loop_raises in H as [-> (p & Hin & Hnone)].
    split; [done|]. right. by exists dirs, fs, p.
  - intros [= <-]. split; [done | by left].
Qed.

Lemma get_nextseq_data_struct_raises_StopIteration_witness :
  let dd := os_path_join (os_path_dirname "/runs/run_2/SampleSheet.csv")
              "Data/Intensities/BaseCalls" in
  OtherException "StopIteration" = OtherException "StopIteration" /\
  (os_walk_top senv_two_runs dd = None \/
   exists project_dir_list file_list p,
     os_walk_top senv_two_runs dd = Some (project_dir_list, file_list) /\
     p ∈ project_dir_list /\
     os_walk_top senv_two_runs (os_path_join dd p) = None).
Proof.
  apply (get_nextseq_data_struct_raises_StopIteration senv_two_runs
           "/runs/run_2/SampleSheet.csv" (OtherException "StopIteration")).
  reflexivity.
Defined.

(** X20: handed the sheet path that [get_sample_sheet] found in a run
    directory (given without a trailing slash), [get_nextseq_data_struct]
    describes the directory Data/Intensities/BaseCalls of that run
    directory. *)
Theorem data_struct_of_run_directory
    (penv : ParserEnv) (senv : ScannerEnv) (directory path : string)
    (st : NextSeqDataStruct) :
  ends_with_slash directory = false ->
  Parser.get_sample_sheet penv directory = Returns path ->
  Parser.get_nextseq_data_struct senv path = Returns st ->
  data_dir st = os_path_join directory "Data/Intensities/BaseCalls".
Proof.
  intros Hend Hsheet Hst.
  assert (Hdir : os_path_dirname path = directory).
  { revert Hsheet. unfold_parser. cbn.
    destruct (os_access_W_OK penv directory); cbn; [|discriminate].
    destruct (common_get_file_list penv directory) as [file_list | e]; cbn; [|discriminate].
    destruct (bool_decide _); cbn; [|discriminate].
    intros [= <-].
    exact (dirname_join_file directory Parser.SAMPLE_SHEET_FILE_NAME Hend eq_refl). }
  revert Hst. unfold Parser.get_nextseq_data_struct. rewrite Hdir.
  unfold next_os_walk, mbind, result_bind. cbn zeta.
  destruct (os_walk_top senv _) as [[dirs fs]|]; [|discriminate].
  intros H. apply get_nextseq_data_struct_loop_returns in H as (entries & -> & _).
  reflexivity.
Qed.

Lemma data_struct_of_run_directory_witness :
  data_dir
    (mkNextSeqDataStruct
       [mkNextSeqDataEntry "6" ["01-1111_S1_L001_R1_001.fastq.gz"];
        mkNextSeqDataEntry "7" ["02-2222_S2_L001_R1_001.fastq.gz"]]
       "/runs/run_1/Data/Intensities/BaseCalls") =
  os_path_join "/runs/run_1" "Data/Intensities/BaseCalls".
Proof.
  apply (data_struct_of_run_directory penv_complete_run senv_two_runs "/runs/run_1"
           "/runs/run_1/SampleSheet.csv"); reflexivity.
Defined.

(** ** Scanning for runs *)

Lemma find_runs_loop_returns
    (senv : ScannerEnv) (directory_list : list string)
    (acc runs : list DirectoryStatusEntry) :
  Parser.find_runs_loop senv directory_list acc = Returns runs
  <->
  exists new,
    runs = acc ++ new /\
    Forall2 (fun d run => progress_get_directory_status senv d required_files = Returns run)
      directory_list new.
Proof.
  revert acc. induction directory_list as [|d rest IH]; intros acc; cbn.
  - split.
    + intros [= <-]. exists []. by rewrite app_nil_r.
    + intros (new & -> & Hall). inversion Hall. by rewrite app_nil_r.
  - change (progress_get_directory_status senv d
              [Parser.SAMPLE_SHEET_FILE_NAME; Parser.UPLOAD_COMPLETE_FILE_NAME])
      with (progress_get_directory_status senv d required_files).
    destruct (progress_get_directory_status senv d required_files) as [run | e] eqn:Hrun; cbn.
    + rewrite IH. split.
      * intros (new & -> & Hall). exists (run :: new). split.
        -- by rewrite <- app_assoc.
        -- by constructor.
      * intros (new & -> & Hall).
        inversion Hall as [|? run' ? new' Hrun' Hrest]; subst.
        rewrite Hrun in Hrun'. injection Hrun' as <-.
        exists new'. split; [by rewrite <- app_assoc | done].
    + split; [discriminate|].
      intros (new & _ & Hall). inversion Hall as [|? ? ? ? Hrun' _]; subst.
      rewrite Hrun in Hrun'. discriminate.
Qed.

(** X21: [find_runs] returns, for the directories that
    [common.find_directory_list] found, the status entries that
    [progress.get_directory_status] gives for each of them with the
    required files SampleSheet.csv and RTAComplete.txt: one entry per
    directory, in the same order, and nothing else. *)
Theorem find_runs_returns_iff
    (senv : ScannerEnv) (directory : string)
    (directory_list : list string) (runs : list DirectoryStatusEntry) :
  common_find_directory_list senv directory = Returns directory_list ->
  Parser.find_runs senv directory = Returns runs
  <->
  Forall2 (fun d run => progress_get_directory_status senv d required_files = Returns run)
    directory_list runs.
Proof.
  intros Hlist. unfold Parser.find_runs, logging_info, mbind, result_bind, mret, result_ret.
  rewrite Hlist. rewrite find_runs_loop_returns. split.
  - by intros (new & -> & Hall).
  - intros Hall. by exists runs.
Qed.

Lemma find_runs_returns_iff_witness :
  Parser.find_runs senv_two_runs "/runs" =
    Returns [mkDirectoryStatusEntry "/runs/run_1" DIRECTORY_STATUS_NEW;
             mkDirectoryStatusEntry "/runs/run_2" DIRECTORY_STATUS_COMPLETE]
  <->
  Forall2 (fun d run =>
             progress_get_directory_status senv_two_runs d required_files = Returns run)
    ["/runs/run_1"; "/runs/run_2"]
    [mkDirectoryStatusEntry "/runs/run_1" DIRECTORY_STATUS_NEW;
     mkDirectoryStatusEntry "/runs/run_2" DIRECTORY_STATUS_COMPLETE].
Proof.
  apply (find_runs_returns_iff senv_two_runs "/runs" ["/runs/run_1"; "/runs/run_2"]).
  reflexivity.
Defined.

Lemma find_runs_loop_first_failure
    (senv : ScannerEnv) (before : list string) (d : string) (after : list string)
    (acc : list DirectoryStatusEntry) (e : exn) :
  Forall (fun d' => exists run,
            progress_get_directory_status senv d' required_files = Returns run) before ->
  progress_get_directory_status senv d required_files = Raises e ->
  Parser.find_runs_loop senv (before ++ d :: after) acc = Raises e.
Proof.
  intros Hbefore Hd. revert acc.
  induction Hbefore as [|d' before' [run Hrun] _ IH]; intros acc; cbn.
  - change (progress_get_directory_status senv d
              [Parser.SAMPLE_SHEET_FILE_NAME; Parser.UPLOAD_COMPLETE_FILE_NAME])
      with (progress_get_directory_status senv d required_files).
    by rewrite Hd.
  - change (progress_get_directory_status senv d'
              [Parser.SAMPLE_SHEET_FILE_NAME; Parser.UPLOAD_COMPLETE_FILE_NAME])
      with (progress_get_directory_status senv d' required_files).
    rewrite Hrun. cbn. apply IH.
Qed.

(** X22: [find_runs] stops at the first directory whose status cannot be
    read: the exception of that directory leaves [find_runs], and the
    entries of the directories before it are not returned. *)
Theorem find_runs_first_failure
    (senv : ScannerEnv) (directory : string)
    (before : list string) (d : string) (after : list string) (e : exn) :
  common_find_directory_list senv directory = Returns (before ++ d :: after) ->
  Forall (fun d' => exists run,
            progress_get_directory_status senv d' required_files = Returns run) before ->
  progress_get_directory_status senv d required_files = Raises e ->
  Parser.find_runs senv directory = Raises e.
Proof.
  intros Hlist Hbefore Hd.
  unfold Parser.find_runs, logging_info, mbind, result_bind, mret, result_ret.
  rewrite Hlist. by apply find_runs_loop_first_failure.
Qed.

Lemma find_runs_first_failure_witness :
  Parser.find_runs senv_second_run_unreadable "/runs" =
    Raises (upload_status_DirectoryError "cannot read status file" "/runs/run_2").
Proof.
  apply (find_runs_first_failure senv_second_run_unreadable "/runs"
           ["/runs/run_1"] "/runs/run_2" ["/runs/run_3"]).
  - reflexivity.
  - constructor; [|constructor]. eexists. reflexivity.
  - reflexivity.
Defined.
